(** * local_certificate_manager: a model of [src/index.ts]

    The tool is a thin orchestration of directory listings, prompts,
    [openssl] invocations and one read/modify/write of a YAML file.  The
    embedding keeps that shape: every function of [index.ts] becomes a
    computation that returns the ordered trace of the effects it performs
    together with the way it ends (normal return, [process.exit], or an
    uncaught exception).  The host (platform, home directory, content of the
    certificate store, content of [tls.yml], operator input) is an explicit
    record that the computations read. *)

From Stdlib Require Import ZArith Ascii String List Lia Bool.
From stdpp Require Import base gmap sets list strings.

Local Set Warnings "-register-all,-clear-no-such-hyp".
Local Open Scope Z_scope.
Local Open Scope stdpp_scope.

(** ** Strings *)

Module Str.

Definition nl : string := String "010"%char EmptyString.
Definition dquote : string := String "034"%char EmptyString.

(** [String.prototype.endsWith(searchString)] with the default end
    position: the search string must fit, and the last
    [searchString.length] units must be equal to it. *)
Definition endsWith (s searchString : string) : bool :=
  let len := String.length s in
  let searchLength := String.length searchString in
  if (searchLength <=? len)%nat
  then String.eqb (String.substring (len - searchLength) searchLength s) searchString
  else false.

(** [s.startsWith(p)], returning what follows the prefix. *)
Fixpoint strip_prefix (p s : string) : option string :=
  match p, s with
  | EmptyString, _ => Some s
  | String a p', String b s' =>
      if Ascii.eqb a b then strip_prefix p' s' else None
  | String _ _, EmptyString => None
  end.

Definition strip_suffix (suf s : string) : option string :=
  if endsWith s suf
  then Some (String.substring 0 (String.length s - String.length suf) s)
  else None.

Fixpoint forallb (f : ascii -> bool) (s : string) : bool :=
  match s with
  | EmptyString => true
  | String c s' => f c && forallb f s'
  end.

(** Splitting a text at every line feed. *)
Fixpoint lines_aux (cur : string) (s : string) : list string :=
  match s with
  | EmptyString => [cur]
  | String c s' =>
      if Ascii.eqb c "010"%char
      then cur :: lines_aux EmptyString s'
      else lines_aux (cur +:+ String c EmptyString) s'
  end.

Definition lines (s : string) : list string := lines_aux EmptyString s.

Definition single_line (s : string) : bool :=
  forallb (fun c => negb (Ascii.eqb c "010"%char)) s.

End Str.

(** ** Values produced by [yaml.parse]

    [parse] returns plain JavaScript data.  The [as TlsConfig] cast in
    [addNewCertificate] is unchecked, so the model keeps the untyped value
    and the run-time behaviour of property access on it. *)

Inductive value : Type :=
| VNull
| VBool (b : bool)
| VNum (literal : string)
| VStr (s : string)
| VArr (items : list value)
| VObj (fields : list (string * value)).

(** The declared types of [index.ts]. *)
Record Certificate : Type := { certFile : string; keyFile : string }.
Record TlsConfig : Type := { certificates : list Certificate }.
Record RootCertificateDefinition : Type := { certificate : string; key : string }.

Definition of_Certificate (c : Certificate) : value :=
  VObj [("certFile", VStr (certFile c)); ("keyFile", VStr (keyFile c))].

Definition of_TlsConfig (t : TlsConfig) : value :=
  VObj [("tls", VObj [("certificates", VArr (map of_Certificate (certificates t)))])].

(** Own-property lookup and in-place assignment on an object's fields (keys
    keep their order, which [stringify] follows). *)
Fixpoint lookup_field (k : string) (fields : list (string * value)) : option value :=
  match fields with
  | [] => None
  | (k', v) :: rest => if String.eqb k' k then Some v else lookup_field k rest
  end.

Fixpoint set_field (k : string) (v : value) (fields : list (string * value))
  : list (string * value) :=
  match fields with
  | [] => [(k, v)]
  | (k', v') :: rest =>
      if String.eqb k' k then (k', v) :: rest else (k', v') :: set_field k v rest
  end.

(** ** Effects and outcomes *)

Inductive level : Type := Info | Error | Success.

Inductive event : Type :=
| log (lvl : level) (msg : string)
| shell_ls (dir : string)
| shell_exec (cmd : string) (cwd : string)
| readFileSync (path : string)
| writeFileSync (path : string) (content : string)
| prompt_choice (title : string) (choices : list (string * string))
| prompt_ask (title : string) (hint : string)
| prompt_rejected (answer : string) (msg : string).

Inductive error : Type :=
| TypeError
| SystemError
| YAMLParseError
| PromptCancelled.

Inductive outcome (A : Type) : Type :=
| Return (a : A)
| Exit (code : Z)
| Throw (e : error).

Arguments Return {A} a.
Arguments Exit {A} code.
Arguments Throw {A} e.

(** A computation: the effects performed, in order, and how it ended. *)
Definition M (A : Type) : Type := list event * outcome A.

Definition ret {A} (a : A) : M A := ([], Return a).

Definition bind {A B} (m : M A) (k : A -> M B) : M B :=
  match m with
  | (t, Return a) => let '(t', o) := k a in (t ++ t', o)
  | (t, Exit c) => (t, Exit c)
  | (t, Throw e) => (t, Throw e)
  end.

Definition emit (e : event) : M unit := ([e], Return tt).
Definition process_exit {A} (code : Z) : M A := ([], Exit code).
Definition throw {A} (e : error) : M A := ([], Throw e).

Declare Scope prog_scope.
Delimit Scope prog_scope with prog.
Notation "x <- c ;; k" := (bind c (fun x => k))
  (at level 100, c at next level, right associativity) : prog_scope.
Notation "c ;; k" := (bind c (fun _ => k))
  (at level 100, right associativity) : prog_scope.
Local Open Scope prog_scope.

Definition trace {A} (m : M A) : list event := fst m.
Definition result {A} (m : M A) : outcome A := snd m.

(** The status the process ends with: [process.exit(c)] gives [c], a normal
    end of [start] gives 0, and Node ends with 1 on an uncaught exception. *)
Definition exit_code (o : outcome unit) : Z :=
  match o with
  | Return _ => 0
  | Exit c => c
  | Throw _ => 1
  end.

(** What a trace does to the outside world. *)
Definition is_exec (e : event) : bool :=
  match e with shell_exec _ _ => true | _ => false end.
Definition is_write (e : event) : bool :=
  match e with writeFileSync _ _ => true | _ => false end.
Definition is_read (e : event) : bool :=
  match e with readFileSync _ => true | _ => false end.

Definition execs (t : list event) : list event := List.filter is_exec t.
Definition writes (t : list event) : list event := List.filter is_write t.

(** The content of the file at [path] after the writes of a trace. *)
Fixpoint file_after (path : string) (before : option string) (t : list event)
  : option string :=
  match t with
  | [] => before
  | writeFileSync p c :: t' =>
      if String.eqb p path then file_after path (Some c) t'
      else file_after path before t'
  | _ :: t' => file_after path before t'
  end.

(** ** The host *)

Record host : Type := {
  os : string;                 (* platform() *)
  homedir : string;            (* homedir() *)
  store : gset string;         (* the names found in ~/.certs; empty when it does not exist *)
  tls_yml : option string;     (* the text of tls.yml, None when it cannot be read *)
  action : string;             (* the operator's answer to prompt.choice *)
  answers : list string;       (* the operator's successive answers to prompt.ask *)
  reachable : string -> bool   (* for a file name with path separators, given from
                                  ~/.certs: whether the directory it leads to exists *)
}.

(** A file name that holds a path separator names a file in another
    directory than the one it is joined to: [/] everywhere, and also the
    backslash where Node runs on Windows itself. *)
Definition is_separator (platform : string) (c : ascii) : bool :=
  Ascii.eqb c "/" || (String.eqb platform "win32" && Ascii.eqb c "092").

Definition has_separator (platform : string) (name : string) : bool :=
  negb (Str.forallb (fun c => negb (is_separator platform c)) name).

(** Whether [fs.writeFileSync] can create [name] from the store directory: a
    plain name lands in the store itself, which exists once its listing has
    shown the root files; a name with separators needs the directory it
    leads to. *)
Definition creatable (h : host) (name : string) : bool :=
  negb (has_separator (os h) name) || reachable h name.

(** ** The pattern of [addNewCertificate]

    [/^\/etc\/ssl\/traefik\/(?<domain>[a-zA-Z-_.]+)\.crt$/]: the class holds the
    two letter ranges and the three characters [-], [_] and [.]. *)

Definition in_range (lo hi c : ascii) : bool :=
  (nat_of_ascii lo <=? nat_of_ascii c)%nat && (nat_of_ascii c <=? nat_of_ascii hi)%nat.

Definition domain_class (c : ascii) : bool :=
  in_range "a" "z" c || in_range "A" "Z" c
  || Ascii.eqb c "-" || Ascii.eqb c "_" || Ascii.eqb c ".".

(** [certFile.match(regexp)]: [None] is JavaScript's [null]; on a match the
    result is the named group [domain].  Both ends are anchored, so the group
    is what lies between the fixed prefix and the final [.crt]. *)
Definition regexp_match (certFile : string) : option string :=
  match Str.strip_prefix "/etc/ssl/traefik/" certFile with
  | None => None
  | Some rest =>
      match Str.strip_suffix ".crt" rest with
      | None => None
      | Some domain =>
          if (1 <=? String.length domain)%nat && Str.forallb domain_class domain
          then Some domain else None
      end
  end.

(** ** Pure helpers of [index.ts] *)

Definition ROOT_CA : RootCertificateDefinition :=
  {| certificate := "root.pem"; key := "root.key" |}.

Definition getCertificateSubject (domain : option string) : string :=
  "/C=FR/ST=azerty/L=azerty/O=azerty/OU=azerty/CN=" +:+ default "Root CA" domain.

Definition createExtensionString (domain : string) : string :=
  "authorityKeyIdentifier=keyid,issuer" +:+ Str.nl +:+
  "basicConstraints=CA:FALSE" +:+ Str.nl +:+
  "keyUsage = digitalSignature, nonRepudiation, keyEncipherment, dataEncipherment" +:+ Str.nl +:+
  "subjectAltName = @alt_names" +:+ Str.nl +:+ Str.nl +:+
  "[alt_names]" +:+ Str.nl +:+
  "DNS.1 = " +:+ domain +:+ Str.nl +:+
  "DNS.2 = *." +:+ domain +:+ Str.nl.

(** The [validate] callback of the domain prompt: [inr tt] is [true], [inl]
    carries the message shown before the question is asked again. *)
Definition validate (answer : string) : string + unit :=
  if (String.length answer =? 0)%nat then inl "You need to choose a domain."
  else if negb (Str.endsWith answer ".test")
       then inl "Your domain has to end with the `.test` extension."
       else inr tt.

Record variant : Type := { keyCmd : string; certCmd : string; doc : string }.

Definition platformVariants (os : string) : option variant :=
  if String.eqb os "win32" then Some
    {| keyCmd := "winpty openssl genrsa -des3 -out root.key 2048";
       certCmd := "winpty openssl req -x509 -new -nodes -key root.key -sha256 -days 1825 -out root.pem -subj "
                  +:+ Str.dquote +:+ getCertificateSubject None +:+ Str.dquote;
       doc := "https://deliciousbrains.com/ssl-certificate-authority-for-local-https-development/#adding-root-cert-macos-keychain" |}
  else if String.eqb os "darwin" then Some
    {| keyCmd := "openssl genrsa -des3 -out root.key 2048";
       certCmd := "openssl req -x509 -new -nodes -key root.key -sha256 -days 1825 -out root.pem -subj "
                  +:+ Str.dquote +:+ getCertificateSubject None +:+ Str.dquote;
       doc := "https://deliciousbrains.com/ssl-certificate-authority-for-local-https-development/#adding-root-cert-macos-keychain" |}
  else if String.eqb os "linux" then Some
    {| keyCmd := "openssl genrsa -des3 -out root.key 2048";
       certCmd := "openssl req -x509 -new -nodes -key root.key -sha256 -days 1825 -out root.pem -subj "
                  +:+ Str.dquote +:+ getCertificateSubject None +:+ Str.dquote;
       doc := "https://deliciousbrains.com/ssl-certificate-authority-for-local-https-development/#adding-root-cert-linux-keychain" |}
  else None.

(** The filter callback shared by the two listings of the store. *)
Definition is_root_file (file : string) : bool :=
  String.eqb file (certificate ROOT_CA) || String.eqb file (key ROOT_CA).

Definition supported : list string := ["darwin"; "linux"; "win32"].

(** The choices of the first prompt, each with its name and its hint. *)
Definition actions : list (string * string) :=
  [("root_ca", "Add a new certificate for a site");
   ("site_cert", "Create CA authority on my machine")].

Definition includes (l : list string) (x : string) : bool :=
  existsb (String.eqb x) l.

(** ** The program

    [path.join], [yaml.parse] and [yaml.stringify] are library functions: the
    program is modelled over any three such functions.  [parse] gives [None]
    where the library throws. *)

Section Program.

Variable join : list string -> string.
Variable parse : string -> option value.
Variable stringify : value -> string.

Definition traefikDir (h : host) : string :=
  join [homedir h; ".apps"; "local_env"; "with_custom_domains"].
Definition certsConfigPath (h : host) : string := join [traefikDir h; "tls.yml"].
Definition certsDir (h : host) : string := join [homedir h; ".certs"].

(** *** Primitives *)

Definition logger (lvl : level) (msg : string) : M unit := emit (log lvl msg).

(** [shell.ls(certsDir)]: the names in the store, each once. *)
Definition ls (h : host) : M (list string) :=
  emit (shell_ls (certsDir h)) ;; ret (elements (store h)).

(** [shell.exec(cmd, { cwd })]: the command is run; its status is not
    looked at and a failure does not throw. *)
Definition exec (cmd cwd : string) : M unit := emit (shell_exec cmd cwd).

Definition readConfig (h : host) : M string :=
  emit (readFileSync (certsConfigPath h)) ;;
  match tls_yml h with
  | Some text => ret text
  | None => throw SystemError
  end.

Definition yaml_parse (text : string) : M value :=
  match parse text with
  | Some v => ret v
  | None => throw YAMLParseError
  end.

(** [fs.writeFileSync] on a path whose directory exists. *)
Definition writeFile (path content : string) : M unit :=
  emit (writeFileSync path content).

(** [fs.writeFileSync(join(certsDir, name), content)]: the file is written,
    or the call throws (ENOENT) when [name] leads to a directory that does
    not exist. *)
Definition writeInStore (h : host) (name content : string) : M unit :=
  if creatable h name
  then writeFile (join [certsDir h; name]) content
  else throw SystemError.

(** Reading the property [k] of a JavaScript value ([None] is [undefined]):
    a TypeError on [undefined] and [null], the field of an object, and
    [undefined] on anything else.  The keys read by the program ([tls],
    [certificates], [certFile]) are no built-in property of a string, number,
    boolean or array. *)
Definition get_prop (v : option value) (k : string) : M (option value) :=
  match v with
  | None => throw TypeError
  | Some VNull => throw TypeError
  | Some (VObj fields) => ret (lookup_field k fields)
  | Some _ => ret None
  end.

(** *** [verifyRootCertificates] *)

Definition fill_definition (d : RootCertificateDefinition) (file : string)
  : RootCertificateDefinition :=
  if String.eqb file (certificate ROOT_CA)
  then {| certificate := file; key := key d |}
  else {| certificate := certificate d; key := file |}.

Definition verifyRootCertificates (h : host) : M RootCertificateDefinition :=
  files <- ls h ;;
  let alreadyExists := List.filter is_root_file files in
  (if negb (length alreadyExists =? 2)%nat
   then logger Error "Root certificate authority do not exist. You can generate it with selecting the second option of this CLI." ;;
        process_exit 1
   else ret tt) ;;
  ret (fold_left fill_definition alreadyExists
         {| certificate := EmptyString; key := EmptyString |}).

(** *** [createCertificateAuthority] *)

(** [platformVariants[os]!.field]: a TypeError when the platform has no entry. *)
Definition variant_field (h : host) (field : variant -> string) : M string :=
  match platformVariants (os h) with
  | Some pv => ret (field pv)
  | None => throw TypeError
  end.

Definition createCertificateAuthority (h : host) : M unit :=
  files <- ls h ;;
  let alreadyExists := List.filter is_root_file files in
  (if (length alreadyExists =? 2)%nat
   then logger Info "Root certificate authority already exist." ;; process_exit 0
   else ret tt) ;;
  logger Info "Creating key..." ;;
  keyCmd <- variant_field h keyCmd ;;
  exec keyCmd (certsDir h) ;;
  logger Info "Creating certificate..." ;;
  certCmd <- variant_field h certCmd ;;
  exec certCmd (certsDir h) ;;
  logger Success "Certificate authority created with name `root.pem` and key `root.key`" ;;
  doc <- variant_field h doc ;;
  logger Info ("You need to trust the certificate authority on your machine. View "
               +:+ doc +:+ " for more info.").

(** *** [generateCertificate] *)

Definition generateCertificate (h : host) (domainName : string) : M unit :=
  exec ("openssl genrsa -out " +:+ domainName +:+ ".key 2048") (certsDir h) ;;
  exec ("openssl req -new -key " +:+ domainName +:+ ".key -out " +:+ domainName
        +:+ ".csr -subj " +:+ Str.dquote +:+ getCertificateSubject (Some domainName)
        +:+ Str.dquote) (certsDir h) ;;
  writeInStore h (domainName +:+ ".ext") (createExtensionString domainName) ;;
  exec ("openssl x509 -req -in " +:+ domainName +:+ ".csr -CA root.pem -CAkey root.key -CAcreateserial -out "
        +:+ domainName +:+ ".crt -days 825 -sha256 -extfile " +:+ domainName +:+ ".ext")
       (certsDir h).

(** *** [addNewCertificate] *)

(** The callback given to [find]. *)
Definition entry_matches (domainName : string) (cert : value) : M bool :=
  certFile <- get_prop (Some cert) "certFile" ;;
  domain <- match certFile with
            | Some (VStr s) => ret (regexp_match s)
            | _ => throw TypeError        (* no callable [match] *)
            end ;;
  match domain with
  | Some d =>
      if (1 <=? String.length d)%nat      (* [domain.groups?.domain] is truthy *)
      then ret (String.eqb d domainName)
      else ret false
  | None => ret false
  end.

(** [Array.prototype.find]: the first element the callback accepts. *)
Fixpoint find_entry (domainName : string) (certs : list value) : M (option value) :=
  match certs with
  | [] => ret None
  | cert :: rest =>
      b <- entry_matches domainName cert ;;
      if b : bool then ret (Some cert) else find_entry domainName rest
  end.

(** [existingCerts.find(...)]: only an array has a callable [find]. *)
Definition find (existingCerts : option value) (domainName : string) : M (option value) :=
  match existingCerts with
  | Some (VArr certs) => find_entry domainName certs
  | _ => throw TypeError
  end.

Definition new_entry (domainName : string) : Certificate :=
  {| certFile := "/etc/ssl/traefik/" +:+ domainName +:+ ".crt";
     keyFile := "/etc/ssl/traefik/" +:+ domainName +:+ ".key" |}.

(** [parsedFile.tls.certificates.push(entry)]: the array is the one held by
    the document, so the document given to [stringify] has the new element.
    A document is a tree here: a YAML alias that lets another key share the
    sequence is not represented. *)
Definition push_certificate (parsedFile : value) (entry : value) : M value :=
  tls <- get_prop (Some parsedFile) "tls" ;;
  certs <- get_prop tls "certificates" ;;
  match parsedFile, tls, certs with
  | VObj top, Some (VObj tlsFields), Some (VArr items) =>
      ret (VObj (set_field "tls"
                   (VObj (set_field "certificates" (VArr (items ++ [entry])) tlsFields))
                   top))
  | _, _, _ => throw TypeError
  end.

Definition addNewCertificate (h : host) (domainName : string) : M unit :=
  verifyRootCertificates h ;;
  file <- readConfig h ;;
  parsedFile <- yaml_parse file ;;
  tls <- get_prop (Some parsedFile) "tls" ;;
  existingCerts <- get_prop tls "certificates" ;;
  entryExists <- find existingCerts domainName ;;
  match entryExists with
  | Some _ =>
      logger Error "This domain is already registered locally. Please choose another one." ;;
      process_exit 1
  | None =>
      generateCertificate h domainName ;;
      parsedFile' <- push_certificate parsedFile (of_Certificate (new_entry domainName)) ;;
      (* [tls.yml] was read from this directory *)
      writeFile (certsConfigPath h) (stringify parsedFile')
  end.

(** *** [start] *)

(** [prompt.ask] with a [validate] callback: a rejected answer shows the
    message and asks again; the operator may also leave the prompt. *)
Fixpoint ask_loop (typed : list string) : M string :=
  match typed with
  | [] => throw PromptCancelled
  | answer :: rest =>
      match validate answer with
      | inr _ => ret answer
      | inl msg => emit (prompt_rejected answer msg) ;; ask_loop rest
      end
  end.

Definition ask (h : host) (title hint : string) : M string :=
  emit (prompt_ask title hint) ;; ask_loop (answers h).

(** [prompt.choice]: the name of the choice the operator selects. *)
Definition choice (h : host) (title : string) (choices : list (string * string))
  : M string :=
  emit (prompt_choice title choices) ;; ret (action h).

Definition start (h : host) : M unit :=
  (if negb (includes supported (os h))
   then logger Error "Your operating system is not supported by this tool." ;;
        process_exit 1
   else ret tt) ;;
  (if String.eqb (os h) "win32"
   then logger Info "If you are running on Windows, you need to execute this tool inside WSL in order to work with openssl."
   else ret tt) ;;
  action <- choice h "What action to execute ?" actions ;;
  if String.eqb action "root_ca" then createCertificateAuthority h
  else if String.eqb action "site_cert" then
    domain <- ask h "Domain to use for this site" "It must end with `.test`" ;;
    addNewCertificate h domain
  else ret tt.

End Program.

(** ** Reading a document the way the program does *)

Definition certFile_of (cert : value) : option string :=
  match cert with
  | VObj fields =>
      match lookup_field "certFile" fields with
      | Some (VStr s) => Some s
      | _ => None
      end
  | _ => None
  end.

(** The domain an entry is registered for: the group captured from its
    [certFile] by the fixed path template. *)
Definition extracted_domain (cert : value) : option string :=
  match certFile_of cert with
  | Some s => regexp_match s
  | None => None
  end.

(** The [{tls: {certificates: [...]}}] shape. *)
Definition certificates_of (v : value) : option (list value) :=
  match v with
  | VObj top =>
      match lookup_field "tls" top with
      | Some (VObj tlsFields) =>
          match lookup_field "certificates" tlsFields with
          | Some (VArr items) => Some items
          | _ => None
          end
      | _ => None
      end
  | _ => None
  end.

Definition roots_present (h : host) : Prop :=
  certificate ROOT_CA ∈ store h /\ key ROOT_CA ∈ store h.

(** ** A concrete host library

    [PosixPath.join] and the [BlockYaml] codec make the model runnable.
    [BlockYaml] covers the block-style text that [stringify] gives a
    [TlsConfig]: a [tls] mapping holding a [certificates] sequence of
    [certFile]/[keyFile] mappings with plain scalars. *)

Module PosixPath.

Definition join (segments : list string) : string := String.concat "/" segments.

(** The segments of a name, cut at every [/]. *)
Fixpoint segments_aux (cur : string) (s : string) : list string :=
  match s with
  | EmptyString => [cur]
  | String c s' =>
      if Ascii.eqb c "/"
      then cur :: segments_aux EmptyString s'
      else segments_aux (cur +:+ String c EmptyString) s'
  end.

Definition segments (name : string) : list string := segments_aux EmptyString name.

(** Following segments from a directory: [.] and empty segments stay, [..]
    goes up, a name goes down. *)
Fixpoint walk (dir : list string) (segs : list string) : list string :=
  match segs with
  | [] => dir
  | seg :: rest =>
      if String.eqb seg "." || String.eqb seg EmptyString then walk dir rest
      else if String.eqb seg ".." then walk (removelast dir) rest
      else walk (dir ++ [seg]) rest
  end.

(** The directory in which a file name given from [base] lands. *)
Definition directory_of (base : list string) (name : string) : list string :=
  walk base (removelast (segments name)).

End PosixPath.

Module BlockYaml.

Definition item_text (cert : value) : option string :=
  match cert with
  | VObj [(k1, VStr c); (k2, VStr k)] =>
      if String.eqb k1 "certFile" && String.eqb k2 "keyFile"
      then Some ("    - certFile: " +:+ c +:+ Str.nl +:+ "      keyFile: " +:+ k +:+ Str.nl)
      else None
  | _ => None
  end.

Fixpoint items_text (items : list value) : option string :=
  match items with
  | [] => Some EmptyString
  | cert :: rest =>
      match item_text cert, items_text rest with
      | Some a, Some b => Some (a +:+ b)
      | _, _ => None
      end
  end.

(** Modelled from the spec: [yaml.stringify] belongs to the [yaml] package,
    which is not part of the sources.  For a document of the shape the spec
    gives, [{tls: {certificates: [{certFile, keyFile}, ...]}}], this is its
    block-style text with plain scalars, an empty sequence being written
    [[]]. *)
Definition stringify (v : value) : string :=
  match v with
  | VObj [(k1, VObj [(k2, VArr items)])] =>
      if String.eqb k1 "tls" && String.eqb k2 "certificates" then
        match items with
        | [] => "tls:" +:+ Str.nl +:+ "  certificates: []" +:+ Str.nl
        | _ =>
            match items_text items with
            | Some body => "tls:" +:+ Str.nl +:+ "  certificates:" +:+ Str.nl +:+ body
            | None => EmptyString
            end
        end
      else EmptyString
  | _ => EmptyString
  end.

Fixpoint parse_items (ls : list string) : option (list value) :=
  match ls with
  | [] => Some []
  | [l] => if String.eqb l EmptyString then Some [] else None
  | l1 :: l2 :: rest =>
      match Str.strip_prefix "    - certFile: " l1,
            Str.strip_prefix "      keyFile: " l2,
            parse_items rest with
      | Some c, Some k, Some more =>
          Some (VObj [("certFile", VStr c); ("keyFile", VStr k)] :: more)
      | _, _, _ => None
      end
  end.

Definition document (items : list value) : value :=
  VObj [("tls", VObj [("certificates", VArr items)])].

(** Modelled from the spec: [yaml.parse], of the same package, on the
    texts of that shape. *)
Definition parse (text : string) : option value :=
  match Str.lines text with
  | l1 :: l2 :: rest =>
      if String.eqb l1 "tls:" then
        if String.eqb l2 "  certificates: []" then
          match rest with
          | [l] => if String.eqb l EmptyString then Some (document []) else None
          | _ => None
          end
        else if String.eqb l2 "  certificates:" then
          match parse_items rest with
          | Some (i :: items) => Some (document (i :: items))
          | _ => None
          end
        else None
      else None
  | _ => None
  end.

End BlockYaml.

(** ** Pure readings of [addNewCertificate]'s steps

    The effect-free content of [find], of the callback and of [push], used to
    state what a run does. *)

Definition matches_domain (domainName : string) (cert : value) : bool :=
  match extracted_domain cert with
  | Some d => String.eqb d domainName
  | None => false
  end.

(** How [existingCerts.find(...)] ends on an array: the first entry whose
    extracted domain is the requested one, [None] ([undefined]) when there is
    none, a TypeError at the first entry reached that has no string
    [certFile]. *)
Fixpoint find_result (domainName : string) (certs : list value) : outcome (option value) :=
  match certs with
  | [] => Return None
  | cert :: rest =>
      match certFile_of cert with
      | None => Throw TypeError
      | Some _ =>
          if matches_domain domainName cert then Return (Some cert)
          else find_result domainName rest
      end
  end.

(** The document after [push], for a document of the expected shape. *)
Definition with_certificate (v entry : value) : option value :=
  match v with
  | VObj top =>
      match lookup_field "tls" top with
      | Some (VObj tlsFields) =>
          match lookup_field "certificates" tlsFields with
          | Some (VArr items) =>
              Some (VObj (set_field "tls"
                            (VObj (set_field "certificates" (VArr (items ++ [entry])) tlsFields))
                            top))
          | _ => None
          end
      | _ => None
      end
  | _ => None
  end.

(** What the program gets from [tls.yml]: the array at [tls.certificates],
    when the file can be read, parses, and has the expected shape. *)
Definition parsed_certificates (parse : string -> option value) (h : host)
  : option (list value) :=
  match tls_yml h with
  | Some text =>
      match parse text with
      | Some v => certificates_of v
      | None => None
      end
  | None => None
  end.

Definition count_in (a : string) (l : list string) : nat :=
  if decide (a ∈ l) then 1%nat else 0%nat.

Definition set_answers (h : host) (typed : list string) : host :=
  {| os := os h; homedir := homedir h; store := store h; tls_yml := tls_yml h;
     action := action h; answers := typed; reachable := reachable h |}.

(** ** Reading an extension file

    The [[alt_names]] section of an OpenSSL extension file: the lines after
    the section header, each [name = value] line giving one entry. *)

Fixpoint split_on (sep before s : string) : option (string * string) :=
  match Str.strip_prefix sep s with
  | Some rest => Some (before, rest)
  | None =>
      match s with
      | EmptyString => None
      | String c s' => split_on sep (before +:+ String c EmptyString) s'
      end
  end.

Fixpoint section_after (header : string) (ls : list string) : list string :=
  match ls with
  | [] => []
  | l :: rest => if String.eqb l header then rest else section_after header rest
  end.

Definition alt_names (content : string) : list (string * string) :=
  omap (split_on " = " EmptyString) (section_after "[alt_names]" (Str.lines content)).

(** The advisory [start] gives on Windows. *)
Definition advisory (h : host) : list event :=
  if String.eqb (os h) "win32"
  then [log Info "If you are running on Windows, you need to execute this tool inside WSL in order to work with openssl."]
  else [].

(** ** Sample hosts

    A developer machine with the POSIX [join] and the block-style codec, in
    the situations the properties are about. *)

Module Sample.

Definition empty_registry : string :=
  "tls:" +:+ Str.nl +:+ "  certificates: []" +:+ Str.nl.

Definition app_registry : string :=
  "tls:" +:+ Str.nl +:+ "  certificates:" +:+ Str.nl +:+
  "    - certFile: /etc/ssl/traefik/app.test.crt" +:+ Str.nl +:+
  "      keyFile: /etc/ssl/traefik/app.test.key" +:+ Str.nl.

(** The directories of the machine: the home directory with [.certs] and
    the directory of [tls.yml], and nothing below [.certs]. *)
Definition directories : list (list string) :=
  [[]; ["home"]; ["home"; "dev"]; ["home"; "dev"; ".certs"];
   ["home"; "dev"; ".apps"]; ["home"; "dev"; ".apps"; "local_env"];
   ["home"; "dev"; ".apps"; "local_env"; "with_custom_domains"]].

Definition leads_to_directory (name : string) : bool :=
  bool_decide (PosixPath.directory_of ["home"; "dev"; ".certs"] name ∈ directories).

Definition machine (platform : string) (files : gset string) (config : option string)
           (chosen : string) (typed : list string) : host :=
  {| os := platform; homedir := "/home/dev"; store := files; tls_yml := config;
     action := chosen; answers := typed; reachable := leads_to_directory |}.

(** Both root files, nothing registered yet. *)
Definition fresh : host :=
  machine "linux" {[ "root.pem"; "root.key" ]} (Some empty_registry)
          "site_cert" ["foo.test"].

(** Both root files, [app.test] registered. *)
Definition registered : host :=
  machine "darwin" {[ "root.pem"; "root.key"; "app.test.crt"; "app.test.key" ]}
          (Some app_registry) "site_cert" ["app.test"].

(** The root key is missing. *)
Definition half_rooted : host :=
  machine "linux" {[ "root.pem" ]} (Some empty_registry) "site_cert" ["foo.test"].

(** No [tls.yml]. *)
Definition unconfigured : host :=
  machine "linux" {[ "root.pem"; "root.key" ]} None "site_cert" ["foo.test"].

(** An unsupported platform. *)
Definition freebsd : host :=
  machine "freebsd" {[ "root.pem"; "root.key" ]} (Some empty_registry)
          "root_ca" [].

(** The operator first types a name without the suffix. *)
Definition hesitant : host :=
  machine "linux" {[ "root.pem"; "root.key" ]} (Some empty_registry)
          "site_cert" ["foo"; "foo.test"].

(** The operator types the bare suffix. *)
Definition bare : host :=
  machine "win32" {[ "root.pem"; "root.key" ]} (Some empty_registry)
          "site_cert" [".test"].

Definition app_entry : value :=
  VObj [("certFile", VStr "/etc/ssl/traefik/app.test.crt");
        ("keyFile", VStr "/etc/ssl/traefik/app.test.key")].

Definition foo_entry : value :=
  VObj [("certFile", VStr "/etc/ssl/traefik/foo.test.crt");
        ("keyFile", VStr "/etc/ssl/traefik/foo.test.key")].

Definition run_start : host -> M unit :=
  start PosixPath.join BlockYaml.parse BlockYaml.stringify.

Definition run_add : host -> string -> M unit :=
  addNewCertificate PosixPath.join BlockYaml.parse BlockYaml.stringify.

Definition run_authority : host -> M unit :=
  createCertificateAuthority PosixPath.join.

Definition config_path : host -> string := certsConfigPath PosixPath.join.

End Sample.

(** ** Further readings of a document and of a host *)

(** The domains a [certificates] sequence is registered for. *)
Definition registered_domains (items : list value) : list string :=
  omap extracted_domain items.

Definition fields_of (v : value) : list (string * value) :=
  match v with
  | VObj fields => fields
  | _ => []
  end.

Definition tls_fields (v : value) : list (string * value) :=
  match lookup_field "tls" (fields_of v) with
  | Some (VObj fields) => fields
  | _ => []
  end.

Definition set_tls_yml (h : host) (text : option string) : host :=
  {| os := os h; homedir := homedir h; store := store h; tls_yml := text;
     action := action h; answers := answers h; reachable := reachable h |}.

Definition is_scalar (v : value) : bool :=
  match v with
  | VNull | VBool _ | VNum _ | VStr _ => true
  | VArr _ | VObj _ => false
  end.

Definition set_reachable (h : host) (exists_for : string -> bool) : host :=
  {| os := os h; homedir := homedir h; store := store h; tls_yml := tls_yml h;
     action := action h; answers := answers h; reachable := exists_for |}.

(** The effects of a trace that are commands, with their working
    directory, and the paths it writes to. *)
Definition exec_dirs (t : list event) : list string :=
  omap (fun e => match e with shell_exec _ cwd => Some cwd | _ => None end) t.

Definition written_paths (t : list event) : list string :=
  omap (fun e => match e with writeFileSync p _ => Some p | _ => None end) t.

Module Sample2.




(** The operator asks for the authority on a machine that has none. *)
Definition rootless : host :=
  Sample.machine "darwin" ∅ None "root_ca" [].

(** Two wrong answers, then a valid one. *)
Definition stubborn : host :=
  Sample.machine "linux" {[ "root.pem"; "root.key" ]} (Some Sample.empty_registry)
                 "site_cert" [EmptyString; "foo.com"; "foo.test"; "bar.test"].

(** The operator types a domain that leads into a directory the store does
    not have. *)
Definition nested : host :=
  Sample.machine "linux" {[ "root.pem"; "root.key" ]} (Some Sample.empty_registry)
                 "site_cert" ["sub/x.test"].

(** A [tls.yml] with other settings around the sequence, and a parser that
    knows this text. *)
Definition settings_text : string :=
  "http:" +:+ Str.nl +:+ "  port: 8080" +:+ Str.nl +:+
  "note: kept by hand" +:+ Str.nl +:+
  "tls:" +:+ Str.nl +:+ "  certificates:" +:+ Str.nl +:+
  "    - certFile: /etc/ssl/traefik/app.test.crt" +:+ Str.nl +:+
  "      keyFile: /etc/ssl/traefik/app.test.key" +:+ Str.nl +:+
  "  passthrough: false" +:+ Str.nl.

Definition settings_document : value :=
  VObj [("http", VObj [("port", VNum "8080")]);
        ("note", VStr "kept by hand");
        ("tls", VObj [("certificates", VArr [Sample.app_entry]);
                      ("passthrough", VBool false)])].

Definition settings_parse (text : string) : option value :=
  if String.eqb text settings_text then Some settings_document
  else BlockYaml.parse text.

Definition configured : host :=
  Sample.machine "linux" {[ "root.pem"; "root.key" ]} (Some settings_text)
                 "site_cert" ["foo.test"].

End Sample2.

(** * Properties *)

(** ** Strings *)

Module StrFacts.
Import Str.

Lemma app_cons (c : ascii) (s t : string) : String c s +:+ t = String c (s +:+ t).
Proof. reflexivity. Qed.

Lemma app_empty_l (t : string) : EmptyString +:+ t = t.
Proof. reflexivity. Qed.

Lemma app_empty_r (s : string) : s +:+ EmptyString = s.
Proof. induction s as [|c s IH]; [reflexivity|]. rewrite app_cons, IH. reflexivity. Qed.

Lemma app_assoc (s t u : string) : (s +:+ t) +:+ u = s +:+ (t +:+ u).
Proof.
  induction s as [|c s IH]; [reflexivity|].
  rewrite !app_cons, IH. reflexivity.
Qed.

Lemma length_app (s t : string) :
  String.length (s +:+ t) = (String.length s + String.length t)%nat.
Proof.
  induction s as [|c s IH]; [reflexivity|].
  rewrite app_cons. simpl. rewrite IH. reflexivity.
Qed.

Lemma substring_all (s : string) : String.substring 0 (String.length s) s = s.
Proof. induction s as [|c s IH]; simpl; [reflexivity|]. rewrite IH. reflexivity. Qed.

Lemma substring_skip (p t : string) (n : nat) :
  String.substring (String.length p) n (p +:+ t) = String.substring 0 n t.
Proof.
  induction p as [|c p IH]; [reflexivity|].
  rewrite app_cons. simpl. exact IH.
Qed.

Lemma substring_take (p t : string) :
  String.substring 0 (String.length p) (p +:+ t) = p.
Proof.
  induction p as [|c p IH].
  - destruct t; reflexivity.
  - rewrite app_cons. simpl. rewrite IH. reflexivity.
Qed.

Lemma substring_split (s : string) (k : nat) :
  (k <= String.length s)%nat ->
  s = String.substring 0 k s +:+ String.substring k (String.length s - k) s.
Proof.
  revert k. induction s as [|c s IH]; intros k Hk.
  - simpl in Hk. assert (k = 0%nat) by lia. subst. reflexivity.
  - destruct k as [|k].
    + simpl. rewrite app_empty_l. rewrite substring_all. reflexivity.
    + simpl in Hk. simpl. rewrite app_cons. f_equal. apply IH. lia.
Qed.

(** [endsWith] decides "is of the form [p ++ suffix]". *)
Lemma endsWith_spec (s suf : string) :
  endsWith s suf = true <-> exists p, s = p +:+ suf.
Proof.
  unfold endsWith. split.
  - destruct (Nat.leb_spec (String.length suf) (String.length s)) as [Hle|]; [|discriminate].
    intros Heq. apply String.eqb_eq in Heq.
    exists (String.substring 0 (String.length s - String.length suf) s).
    pose proof (substring_split s (String.length s - String.length suf)) as Hs.
    replace (String.length s - (String.length s - String.length suf))%nat
      with (String.length suf) in Hs by lia.
    rewrite Heq in Hs. apply Hs. lia.
  - intros [p ->]. rewrite length_app.
    destruct (Nat.leb_spec (String.length suf) (String.length p + String.length suf)); [|lia].
    replace (String.length p + String.length suf - String.length suf)%nat
      with (String.length p) by lia.
    rewrite substring_skip, substring_all. apply String.eqb_refl.
Qed.

Lemma strip_prefix_spec (p s rest : string) :
  strip_prefix p s = Some rest <-> s = p +:+ rest.
Proof.
  revert s. induction p as [|a p IH]; intros s; simpl.
  - rewrite app_empty_l. split; [intros [= ->]; reflexivity | intros ->; reflexivity].
  - destruct s as [|b s].
    + split; [discriminate | rewrite app_cons; discriminate].
    + rewrite app_cons. destruct (Ascii.eqb_spec a b) as [->|Hne].
      * rewrite IH. split; [intros ->; reflexivity | intros [= ->]; reflexivity].
      * split; [discriminate | intros [= -> _]; contradiction].
Qed.

Lemma strip_suffix_spec (suf s rest : string) :
  strip_suffix suf s = Some rest <-> s = rest +:+ suf.
Proof.
  unfold strip_suffix. split.
  - destruct (endsWith s suf) eqn:E; [|discriminate].
    apply endsWith_spec in E as [p ->]. intros [= <-].
    rewrite length_app.
    replace (String.length p + String.length suf - String.length suf)%nat
      with (String.length p) by lia.
    rewrite substring_take. reflexivity.
  - intros ->.
    assert (E : endsWith (rest +:+ suf) suf = true) by (apply endsWith_spec; eauto).
    rewrite E, length_app.
    replace (String.length rest + String.length suf - String.length suf)%nat
      with (String.length rest) by lia.
    rewrite substring_take. reflexivity.
Qed.

Lemma app_inv_head (p s t : string) : p +:+ s = p +:+ t -> s = t.
Proof.
  induction p as [|c p IH]; [exact id|].
  rewrite !app_cons. intros [= H]. auto.
Qed.

Lemma app_inv_tail (s t suf : string) : s +:+ suf = t +:+ suf -> s = t.
Proof.
  intros H.
  assert (Hl : String.length s = String.length t).
  { apply (f_equal String.length) in H. rewrite !length_app in H. lia. }
  revert t H Hl. induction s as [|c s IH]; intros [|d t] H Hl; simpl in Hl; try lia.
  - reflexivity.
  - rewrite !app_cons in H. injection H as -> H. f_equal. apply IH; [exact H | lia].
Qed.

End StrFacts.

(** ** The path template *)

(** [regexp_match] returns [d] exactly when the path is the template filled
    with a non-empty [d] made of characters of the class. *)
Lemma regexp_match_spec (s d : string) :
  regexp_match s = Some d <->
  s = "/etc/ssl/traefik/" +:+ d +:+ ".crt"
  /\ d <> EmptyString /\ Str.forallb domain_class d = true.
Proof.
  unfold regexp_match. split.
  - destruct (Str.strip_prefix _ s) as [rest|] eqn:Hp; [|discriminate].
    destruct (Str.strip_suffix _ rest) as [dom|] eqn:Hs; [|discriminate].
    destruct (_ && _) eqn:Hc; [|discriminate]. intros [= ->].
    apply StrFacts.strip_prefix_spec in Hp. apply StrFacts.strip_suffix_spec in Hs.
    apply andb_true_iff in Hc as [Hlen Hall]. subst.
    split; [reflexivity|]. split; [|exact Hall].
    intros ->. discriminate.
  - intros (-> & Hne & Hall).
    assert (Hp : Str.strip_prefix "/etc/ssl/traefik/" ("/etc/ssl/traefik/" +:+ d +:+ ".crt")
                 = Some (d +:+ ".crt")) by (apply StrFacts.strip_prefix_spec; reflexivity).
    rewrite Hp.
    assert (Hs : Str.strip_suffix ".crt" (d +:+ ".crt") = Some d)
      by (apply StrFacts.strip_suffix_spec; reflexivity).
    rewrite Hs, Hall. destruct d; [contradiction|reflexivity].
Qed.

(** The template is injective: a path is registered for at most one domain,
    and the path written for [d] is read back as [d]. *)
Lemma regexp_match_new_entry (d : string) :
  d <> EmptyString -> Str.forallb domain_class d = true ->
  regexp_match ("/etc/ssl/traefik/" +:+ d +:+ ".crt") = Some d.
Proof. intros. apply regexp_match_spec. auto. Qed.

(** ** Listing the store *)

Lemma is_root_file_spec (file : string) :
  is_root_file file = true <-> file = "root.pem" \/ file = "root.key".
Proof.
  unfold is_root_file. rewrite orb_true_iff, !String.eqb_eq. reflexivity.
Qed.

Lemma roots_filter_length (l : list string) :
  NoDup l ->
  length (List.filter is_root_file l) = (count_in "root.pem" l + count_in "root.key" l)%nat.
Proof.
  induction 1 as [|x l Hx Hnd IH]; [reflexivity|].
  simpl. unfold count_in in *.
  destruct (is_root_file x) eqn:E.
  - apply is_root_file_spec in E. simpl. rewrite IH.
    destruct E as [-> | ->];
      repeat destruct (decide _); try lia; exfalso;
      rewrite ?elem_of_cons in *; naive_solver.
  - assert (x <> "root.pem" /\ x <> "root.key") as [H1 H2].
    { split; intros ->; discriminate. }
    rewrite IH. repeat destruct (decide _); try lia; exfalso;
      rewrite ?elem_of_cons in *; naive_solver.
Qed.

(** Both listings of the store see two root files exactly when both fixed
    names are in the directory. *)
Lemma roots_listed (h : host) :
  length (List.filter is_root_file (elements (store h))) = 2%nat <-> roots_present h.
Proof.
  rewrite roots_filter_length by apply NoDup_elements.
  unfold roots_present, count_in. simpl.
  repeat destruct (decide _); rewrite ?elem_of_elements in *; split; intros; try lia; tauto.
Qed.

(** ** Runs of the program *)

Section Runs.

Variable join : list string -> string.
Variable parse : string -> option value.
Variable stringify : value -> string.

Lemma bind_ret_l {A B} (a : A) (k : A -> M B) : bind (ret a) k = k a.
Proof. unfold bind, ret. destruct (k a) as [t o]. reflexivity. Qed.

Lemma bind_emit {B} (e : event) (k : unit -> M B) :
  bind (emit e) k = (e :: trace (k tt), result (k tt)).
Proof. unfold bind, emit, trace, result. destruct (k tt) as [t o]. reflexivity. Qed.

Lemma bind_exit {A B} (t : list event) (c : Z) (k : A -> M B) :
  bind (t, Exit c) k = (t, Exit c).
Proof. reflexivity. Qed.

Lemma bind_throw {A B} (t : list event) (e : error) (k : A -> M B) :
  bind (t, Throw e) k = (t, Throw e).
Proof. reflexivity. Qed.

Lemma bind_return {A B} (t : list event) (a : A) (k : A -> M B) :
  bind (t, Return a) k = (t ++ trace (k a), result (k a)).
Proof. unfold bind, trace, result. destruct (k a). reflexivity. Qed.

Lemma bind_assoc {A B C} (m : M A) (f : A -> M B) (g : B -> M C) :
  bind (bind m f) g = bind m (fun a => bind (f a) g).
Proof.
  unfold bind. destruct m as [t [a| |]]; try reflexivity.
  destruct (f a) as [t1 [b| |]]; try reflexivity.
  destruct (g b) as [t2 o]. rewrite <- List.app_assoc. reflexivity.
Qed.

(** *** [verifyRootCertificates] *)

Lemma verifyRootCertificates_missing (h : host) :
  ~ roots_present h ->
  verifyRootCertificates join h =
    ([shell_ls (certsDir join h);
      log Error "Root certificate authority do not exist. You can generate it with selecting the second option of this CLI."],
     Exit 1).
Proof.
  intros Hmiss. unfold verifyRootCertificates, ls.
  destruct (Nat.eqb_spec (length (List.filter is_root_file (elements (store h)))) 2) as [E|E].
  - apply roots_listed in E. contradiction.
  - cbv [bind emit ret logger process_exit negb]. rewrite (proj2 (Nat.eqb_neq _ _) E).
    reflexivity.
Qed.

Lemma verifyRootCertificates_present (h : host) :
  roots_present h ->
  exists d, verifyRootCertificates join h = ([shell_ls (certsDir join h)], Return d).
Proof.
  intros Hp. apply roots_listed in Hp. unfold verifyRootCertificates, ls.
  cbv [bind emit ret logger process_exit negb]. rewrite Hp. simpl. eauto.
Qed.

Lemma verifyRootCertificates_cases (h : host) :
  (roots_present h /\ exists d,
     verifyRootCertificates join h = ([shell_ls (certsDir join h)], Return d))
  \/ (~ roots_present h /\ exists msg,
     verifyRootCertificates join h = ([shell_ls (certsDir join h); log Error msg], Exit 1)).
Proof.
  destruct (Nat.eqb_spec (length (List.filter is_root_file (elements (store h)))) 2) as [E|E].
  - left. apply roots_listed in E. split; [exact E|].
    apply verifyRootCertificates_present; exact E.
  - right. assert (Hm : ~ roots_present h) by (rewrite <- roots_listed; exact E).
    split; [exact Hm|]. eexists. apply verifyRootCertificates_missing; exact Hm.
Qed.

(** *** [createCertificateAuthority] *)

Lemma createCertificateAuthority_present (h : host) :
  roots_present h ->
  createCertificateAuthority join h =
    ([shell_ls (certsDir join h); log Info "Root certificate authority already exist."],
     Exit 0).
Proof.
  intros Hp. apply roots_listed in Hp. unfold createCertificateAuthority, ls.
  cbv [bind emit ret logger process_exit]. rewrite Hp. reflexivity.
Qed.

Lemma createCertificateAuthority_absent (h : host) (pv : variant) :
  ~ roots_present h ->
  platformVariants (os h) = Some pv ->
  createCertificateAuthority join h =
    ([shell_ls (certsDir join h);
      log Info "Creating key...";
      shell_exec (keyCmd pv) (certsDir join h);
      log Info "Creating certificate...";
      shell_exec (certCmd pv) (certsDir join h);
      log Success "Certificate authority created with name `root.pem` and key `root.key`";
      log Info ("You need to trust the certificate authority on your machine. View "
                +:+ doc pv +:+ " for more info.")],
     Return tt).
Proof.
  intros Hm Hpv. rewrite <- roots_listed in Hm. apply Nat.eqb_neq in Hm.
  unfold createCertificateAuthority, ls, variant_field.
  cbv [bind emit ret logger process_exit exec]. rewrite Hm, Hpv. reflexivity.
Qed.

(** C4. Authority creation does nothing exactly when both root file names
    are listed in the store: with both present it ends with [process.exit(0)]
    after the listing and one message, writing nothing and running nothing;
    with either one missing the root authority counts as absent and the
    key-generation command, then the certificate-generation command, are run
    in the store directory. *)
Theorem C4_authority_creation (h : host) (pv : variant) :
  platformVariants (os h) = Some pv ->
  (roots_present h ->
     createCertificateAuthority join h =
       ([shell_ls (certsDir join h); log Info "Root certificate authority already exist."],
        Exit 0))
  /\ (~ roots_present h ->
     execs (trace (createCertificateAuthority join h)) =
       [shell_exec (keyCmd pv) (certsDir join h); shell_exec (certCmd pv) (certsDir join h)]
     /\ result (createCertificateAuthority join h) = Return tt)
  /\ (execs (trace (createCertificateAuthority join h)) = []
      /\ writes (trace (createCertificateAuthority join h)) = []
      /\ result (createCertificateAuthority join h) = Exit 0
      <-> roots_present h).
Proof.
  intros Hpv.
  assert (Hpresent := createCertificateAuthority_present h).
  assert (Habsent := fun Hm => createCertificateAuthority_absent h pv Hm Hpv).
  split; [exact Hpresent|]. split.
  - intros Hm. rewrite (Habsent Hm). split; reflexivity.
  - split.
    + intros (He & _ & _).
      destruct (Nat.eqb_spec (length (List.filter is_root_file (elements (store h)))) 2) as [E|E].
      * apply roots_listed; exact E.
      * rewrite <- roots_listed in Habsent. rewrite (Habsent E) in He. discriminate.
    + intros Hp. rewrite (Hpresent Hp). repeat split.
Qed.

(** *** The platform gate of [start] *)

Lemma includes_In (l : list string) (x : string) : includes l x = true <-> In x l.
Proof.
  unfold includes. rewrite existsb_exists. split.
  - intros (y & Hy & E). apply String.eqb_eq in E. subst. exact Hy.
  - intros Hx. exists x. split; [exact Hx | apply String.eqb_refl].
Qed.

(** C8. On a platform other than darwin, linux and win32, [start] reports the
    unsupported system and ends with [process.exit(1)]: the error message is
    the only effect, so no prompt is shown, no flow runs, no file is read or
    written and no command is executed. *)
Theorem C8_unsupported_platform (h : host) :
  ~ In (os h) ["darwin"; "linux"; "win32"] ->
  start join parse stringify h =
    ([log Error "Your operating system is not supported by this tool."], Exit 1).
Proof.
  intros Hns. unfold start.
  assert (E : includes supported (os h) = false).
  { destruct (includes supported (os h)) eqn:E; [|reflexivity].
    apply includes_In in E. contradiction. }
  rewrite E. reflexivity.
Qed.

(** C3. When the store lacks [root.pem] or [root.key], registering any domain
    ends with [process.exit(1)] right after the listing of the store: the run
    consists of that listing and the error message, so no command is
    executed and [tls.yml] is neither read nor written. *)
Theorem C3_missing_root_rejected (h : host) (domainName : string) :
  "root.pem" ∉ store h \/ "root.key" ∉ store h ->
  addNewCertificate join parse stringify h domainName =
    ([shell_ls (certsDir join h);
      log Error "Root certificate authority do not exist. You can generate it with selecting the second option of this CLI."],
     Exit 1)
  /\ execs (trace (addNewCertificate join parse stringify h domainName)) = []
  /\ List.filter is_read (trace (addNewCertificate join parse stringify h domainName)) = []
  /\ writes (trace (addNewCertificate join parse stringify h domainName)) = [].
Proof.
  intros Hmiss.
  assert (Hm : ~ roots_present h) by (unfold roots_present; simpl; tauto).
  assert (E : addNewCertificate join parse stringify h domainName =
    ([shell_ls (certsDir join h);
      log Error "Root certificate authority do not exist. You can generate it with selecting the second option of this CLI."],
     Exit 1)).
  { unfold addNewCertificate. rewrite (verifyRootCertificates_missing h Hm). reflexivity. }
  rewrite E. repeat split.
Qed.

(** *** Objects *)

Lemma lookup_set_field (k : string) (x : value) (fields : list (string * value)) :
  lookup_field k (set_field k x fields) = Some x.
Proof.
  induction fields as [|[k' v'] rest IH]; simpl.
  - rewrite String.eqb_refl. reflexivity.
  - destruct (String.eqb k' k) eqn:E; simpl; rewrite E; [reflexivity | exact IH].
Qed.

Lemma lookup_set_field_ne (k k' : string) (x : value) (fields : list (string * value)) :
  k' <> k -> lookup_field k' (set_field k x fields) = lookup_field k' fields.
Proof.
  intros Hne. induction fields as [|[k0 v0] rest IH]; simpl.
  - destruct (String.eqb_spec k k'); [congruence | reflexivity].
  - destruct (String.eqb_spec k0 k) as [->|]; simpl.
    + destruct (String.eqb_spec k k'); [congruence | reflexivity].
    + destruct (String.eqb_spec k0 k'); [reflexivity | exact IH].
Qed.

Lemma with_certificate_shape (v entry : value) (items : list value) :
  certificates_of v = Some items ->
  exists v', with_certificate v entry = Some v'
             /\ certificates_of v' = Some (items ++ [entry]).
Proof.
  unfold certificates_of, with_certificate.
  destruct v as [| | | | |top]; try discriminate.
  destruct (lookup_field "tls" top) as [[| | | | |tlsFields]|]; try discriminate.
  destruct (lookup_field "certificates" tlsFields) as [[| | | |its|]|]; try discriminate.
  intros [= ->]. eexists. split; [reflexivity|].
  unfold certificates_of. rewrite !lookup_set_field. reflexivity.
Qed.

Lemma push_certificate_shape (v entry : value) (items : list value) :
  certificates_of v = Some items ->
  exists v', with_certificate v entry = Some v'
             /\ push_certificate v entry = ([], Return v').
Proof.
  unfold certificates_of, with_certificate, push_certificate.
  destruct v as [| | | | |top]; try discriminate.
  simpl. destruct (lookup_field "tls" top) as [[| | | | |tlsFields]|]; try discriminate.
  simpl. destruct (lookup_field "certificates" tlsFields) as [[| | | |its|]|]; try discriminate.
  intros [= ->]. eexists. split; reflexivity.
Qed.

(** *** The conflict check *)

Lemma regexp_match_nonempty (s d : string) :
  regexp_match s = Some d -> (1 <=? String.length d)%nat = true.
Proof.
  intros H. apply regexp_match_spec in H as (_ & Hne & _).
  destruct d; [contradiction | reflexivity].
Qed.

Lemma entry_matches_string (domainName : string) (cert : value) (s : string) :
  certFile_of cert = Some s ->
  entry_matches domainName cert = ([], Return (matches_domain domainName cert)).
Proof.
  unfold certFile_of, entry_matches, matches_domain, extracted_domain, certFile_of.
  destruct cert as [| | | | |fields]; try discriminate.
  simpl. destruct (lookup_field "certFile" fields) as [[| | |s'| |]|]; try discriminate.
  intros [= ->].
  destruct (regexp_match s) as [d|] eqn:E; [|reflexivity].
  pose proof (regexp_match_nonempty _ _ E) as Hn.
  destruct d; [discriminate | reflexivity].
Qed.

Lemma entry_matches_other (domainName : string) (cert : value) :
  certFile_of cert = None ->
  entry_matches domainName cert = ([], Throw TypeError).
Proof.
  unfold certFile_of, entry_matches.
  destruct cert as [| | | | |fields]; try reflexivity.
  simpl. destruct (lookup_field "certFile" fields) as [[| | |s'| |]|];
    try reflexivity; discriminate.
Qed.

Lemma find_entry_result (domainName : string) (certs : list value) :
  find_entry domainName certs = ([], find_result domainName certs).
Proof.
  induction certs as [|cert rest IH]; [reflexivity|].
  simpl. destruct (certFile_of cert) as [s|] eqn:E.
  - rewrite (entry_matches_string _ _ _ E).
    destruct (matches_domain domainName cert); simpl; [reflexivity|].
    rewrite IH. reflexivity.
  - rewrite (entry_matches_other _ _ E). reflexivity.
Qed.

(** An entry registered for the requested domain makes [find] end on an
    entry, as long as the entries before it can be inspected. *)
Lemma find_result_conflict (domainName : string) (certs : list value) (cert : value) :
  Forall (fun c => is_Some (certFile_of c)) certs ->
  In cert certs ->
  extracted_domain cert = Some domainName ->
  exists found, find_result domainName certs = Return (Some found).
Proof.
  induction 1 as [|c rest [s Hs] Hall IH]; intros Hin Hd; [destruct Hin|].
  simpl. rewrite Hs.
  destruct (matches_domain domainName c) eqn:E; [eauto|].
  destruct Hin as [->|Hin]; [|auto].
  unfold matches_domain in E. rewrite Hd, String.eqb_refl in E. discriminate.
Qed.

(** Even among entries that cannot be inspected, a conflict never lets
    [find] come back empty-handed. *)
Lemma find_result_conflict_any (domainName : string) (certs : list value) (cert : value) :
  In cert certs ->
  extracted_domain cert = Some domainName ->
  find_result domainName certs <> Return None.
Proof.
  induction certs as [|c rest IH]; intros Hin Hd; [destruct Hin|].
  simpl. destruct (certFile_of c) eqn:Hc; [|discriminate].
  destruct (matches_domain domainName c) eqn:E; [discriminate|].
  destruct Hin as [->|Hin]; [|auto].
  unfold matches_domain in E. rewrite Hd, String.eqb_refl in E. discriminate.
Qed.

Lemma find_result_none (domainName : string) (certs : list value) :
  find_result domainName certs = Return None <->
  Forall (fun c => is_Some (certFile_of c)
                   /\ extracted_domain c <> Some domainName) certs.
Proof.
  induction certs as [|c rest IH]; simpl.
  - split; [constructor | reflexivity].
  - destruct (certFile_of c) as [s|] eqn:Hc.
    + unfold matches_domain. destruct (extracted_domain c) as [d|] eqn:Hd.
      * destruct (String.eqb_spec d domainName) as [->|Hne].
        -- split; [discriminate|]. intros H. inversion H as [|? ? [_ Hx] _]; congruence.
        -- rewrite IH. split.
           ++ intros H. constructor; [|exact H]. split; [eauto | congruence].
           ++ intros H. inversion H; assumption.
      * rewrite IH. split.
        -- intros H. constructor; [|exact H]. split; [eauto | congruence].
        -- intros H. inversion H; assumption.
    + split; [discriminate|]. intros H. inversion H as [|? ? [[? Hx] _] _]. congruence.
Qed.

Lemma find_result_cases (domainName : string) (certs : list value) :
  find_result domainName certs = Return None
  \/ (exists found, find_result domainName certs = Return (Some found))
  \/ find_result domainName certs = Throw TypeError.
Proof.
  induction certs as [|c rest IH]; simpl; [auto|].
  destruct (certFile_of c); [|auto].
  destruct (matches_domain domainName c); [eauto | exact IH].
Qed.

(** *** Documents of the declared type *)

Lemma certificates_of_TlsConfig (t : TlsConfig) :
  certificates_of (of_TlsConfig t) = Some (map of_Certificate (certificates t)).
Proof. reflexivity. Qed.

Lemma TlsConfig_entries_inspectable (t : TlsConfig) :
  Forall (fun c => is_Some (certFile_of c)) (map of_Certificate (certificates t)).
Proof.
  apply List.Forall_forall. intros c Hc. apply in_map_iff in Hc as (x & <- & _).
  simpl. eauto.
Qed.

Lemma extracted_domain_new_entry (d : string) :
  d <> EmptyString -> Str.forallb domain_class d = true ->
  extracted_domain (of_Certificate (new_entry d)) = Some d.
Proof. intros Hne Hall. simpl. apply regexp_match_new_entry; assumption. Qed.

(** *** [addNewCertificate], case by case *)

Lemma generateCertificate_created (h : host) (domainName : string) :
  creatable h (domainName +:+ ".ext") = true ->
  generateCertificate join h domainName =
    (trace (generateCertificate join h domainName), Return tt)
  /\ writes (trace (generateCertificate join h domainName)) =
       [writeFileSync (join [certsDir join h; domainName +:+ ".ext"])
          (createExtensionString domainName)]
  /\ length (execs (trace (generateCertificate join h domainName))) = 3%nat.
Proof.
  intros Hc. unfold generateCertificate, writeInStore. rewrite Hc. repeat split.
Qed.

Lemma generateCertificate_stopped (h : host) (domainName : string) :
  creatable h (domainName +:+ ".ext") = false ->
  generateCertificate join h domainName =
    (trace (generateCertificate join h domainName), Throw SystemError)
  /\ writes (trace (generateCertificate join h domainName)) = []
  /\ length (execs (trace (generateCertificate join h domainName))) = 2%nat.
Proof.
  intros Hc. unfold generateCertificate, writeInStore. rewrite Hc. repeat split.
Qed.

Lemma addNewCertificate_unreadable (h : host) (domainName : string) :
  roots_present h -> tls_yml h = None ->
  addNewCertificate join parse stringify h domainName =
    ([shell_ls (certsDir join h); readFileSync (certsConfigPath join h)],
     Throw SystemError).
Proof.
  intros Hp Hf. destruct (verifyRootCertificates_present h Hp) as [d Hd].
  unfold addNewCertificate, readConfig. rewrite Hd, Hf. reflexivity.
Qed.

Lemma addNewCertificate_unparsable (h : host) (domainName text : string) :
  roots_present h -> tls_yml h = Some text -> parse text = None ->
  addNewCertificate join parse stringify h domainName =
    ([shell_ls (certsDir join h); readFileSync (certsConfigPath join h)],
     Throw YAMLParseError).
Proof.
  intros Hp Hf Hy. destruct (verifyRootCertificates_present h Hp) as [d Hd].
  unfold addNewCertificate, readConfig, yaml_parse. rewrite Hd, Hf. simpl.
  rewrite Hy. reflexivity.
Qed.

Lemma addNewCertificate_misshapen (h : host) (domainName text : string) (v : value) :
  roots_present h -> tls_yml h = Some text -> parse text = Some v ->
  certificates_of v = None ->
  addNewCertificate join parse stringify h domainName =
    ([shell_ls (certsDir join h); readFileSync (certsConfigPath join h)],
     Throw TypeError).
Proof.
  intros Hp Hf Hy Hs. destruct (verifyRootCertificates_present h Hp) as [d Hd].
  unfold addNewCertificate, readConfig, yaml_parse. rewrite Hd, Hf. simpl.
  rewrite Hy. simpl. unfold certificates_of in Hs.
  destruct v as [| | | | |top]; try reflexivity.
  simpl. destruct (lookup_field "tls" top) as [[| | | | |tlsFields]|]; try reflexivity.
  simpl. destruct (lookup_field "certificates" tlsFields) as [[| | | |its|]|];
    try reflexivity; discriminate.
Qed.

Lemma addNewCertificate_shaped (h : host) (domainName text : string) (v : value)
      (items : list value) :
  roots_present h -> tls_yml h = Some text -> parse text = Some v ->
  certificates_of v = Some items ->
  addNewCertificate join parse stringify h domainName =
    match find_result domainName items with
    | Return None =>
        match with_certificate v (of_Certificate (new_entry domainName)) with
        | Some v' =>
            if creatable h (domainName +:+ ".ext") then
              ([shell_ls (certsDir join h); readFileSync (certsConfigPath join h)]
                 ++ trace (generateCertificate join h domainName)
                 ++ [writeFileSync (certsConfigPath join h) (stringify v')],
               Return tt)
            else
              ([shell_ls (certsDir join h); readFileSync (certsConfigPath join h)]
                 ++ trace (generateCertificate join h domainName),
               Throw SystemError)
        | None =>
            ([shell_ls (certsDir join h); readFileSync (certsConfigPath join h)]
               ++ trace (generateCertificate join h domainName),
             if creatable h (domainName +:+ ".ext")
             then Throw TypeError else Throw SystemError)
        end
    | Return (Some _) =>
        ([shell_ls (certsDir join h); readFileSync (certsConfigPath join h);
          log Error "This domain is already registered locally. Please choose another one."],
         Exit 1)
    | Exit c =>
        ([shell_ls (certsDir join h); readFileSync (certsConfigPath join h)], Exit c)
    | Throw e =>
        ([shell_ls (certsDir join h); readFileSync (certsConfigPath join h)], Throw e)
    end.
Proof.
  intros Hp Hf Hy Hs. destruct (verifyRootCertificates_present h Hp) as [d Hd].
  unfold certificates_of in Hs.
  destruct v as [| | | | |top]; try discriminate.
  destruct (lookup_field "tls" top) as [[| | | | |tlsFields]|] eqn:Htls;
    try discriminate.
  destruct (lookup_field "certificates" tlsFields) as [[| | | |its|]|] eqn:Hc;
    try discriminate.
  injection Hs as ->.
  unfold addNewCertificate, readConfig, yaml_parse, with_certificate, push_certificate.
  rewrite Hd, Hf. simpl. rewrite Hy. simpl. rewrite Htls. simpl. rewrite Hc. simpl.
  rewrite find_entry_result.
  destruct (find_result domainName items) as [[found|]| |]; try reflexivity.
  unfold generateCertificate, writeInStore.
  destruct (creatable h (domainName +:+ ".ext")); reflexivity.
Qed.

(** *** The file after a run *)

Lemma file_after_no_writes (path : string) (before : option string) (t : list event) :
  writes t = [] -> file_after path before t = before.
Proof.
  induction t as [|e t IH]; [reflexivity|].
  unfold writes in *. simpl. destruct e; simpl; try exact IH. discriminate.
Qed.

Lemma file_after_last_write (path content : string) (before : option string)
      (t : list event) :
  file_after path before (t ++ [writeFileSync path content]) = Some content.
Proof.
  revert before. induction t as [|e t IH]; intros before; simpl.
  - rewrite String.eqb_refl. reflexivity.
  - destruct e; try apply IH. destruct (String.eqb path0 path); apply IH.
Qed.

(** *** Every run of [addNewCertificate] *)

Lemma parsed_certificates_none (h : host) :
  parsed_certificates parse h = None ->
  tls_yml h = None
  \/ (exists text, tls_yml h = Some text /\ parse text = None)
  \/ (exists text v, tls_yml h = Some text /\ parse text = Some v
                     /\ certificates_of v = None).
Proof.
  unfold parsed_certificates. destruct (tls_yml h) as [text|]; [|auto].
  destruct (parse text) as [v|] eqn:E; [|eauto]. intros Hs. right. right. eauto.
Qed.

Lemma parsed_certificates_some (h : host) (items : list value) :
  parsed_certificates parse h = Some items ->
  exists text v, tls_yml h = Some text /\ parse text = Some v
                 /\ certificates_of v = Some items.
Proof.
  unfold parsed_certificates. destruct (tls_yml h) as [text|]; [|discriminate].
  destruct (parse text) as [v|] eqn:E; [|discriminate]. eauto.
Qed.

(** Without a usable [tls.yml] the run stops on an exception right after the
    read. *)
Lemma addNewCertificate_no_config (h : host) (domainName : string) :
  roots_present h ->
  parsed_certificates parse h = None ->
  exists e, addNewCertificate join parse stringify h domainName =
    ([shell_ls (certsDir join h); readFileSync (certsConfigPath join h)], Throw e).
Proof.
  intros Hp Hn.
  destruct (parsed_certificates_none h Hn)
    as [Hf | [(text & Hf & Hy) | (text & v & Hf & Hy & Hs)]]; eexists.
  - apply addNewCertificate_unreadable; assumption.
  - eapply addNewCertificate_unparsable; eassumption.
  - eapply addNewCertificate_misshapen; eassumption.
Qed.

(** The listing comes first and, unless it ends the run, the read of
    [tls.yml] comes second. *)
Lemma addNewCertificate_reads_first (h : host) (domainName : string) :
  (exists msg, trace (addNewCertificate join parse stringify h domainName) =
               [shell_ls (certsDir join h); log Error msg])
  \/ (exists tail, trace (addNewCertificate join parse stringify h domainName) =
                   shell_ls (certsDir join h) :: readFileSync (certsConfigPath join h) :: tail).
Proof.
  destruct (verifyRootCertificates_cases h) as [[Hp _] | [Hm _]].
  - right. destruct (parsed_certificates parse h) as [items|] eqn:Hpc.
    + apply parsed_certificates_some in Hpc as (text & v & Hf & Hy & Hs).
      rewrite (addNewCertificate_shaped h domainName text v items Hp Hf Hy Hs).
      destruct (find_result domainName items) as [[found|]| |]; try (eexists; reflexivity).
      destruct (with_certificate v _);
        destruct (creatable h (domainName +:+ ".ext")); eexists; reflexivity.
    + destruct (addNewCertificate_no_config h domainName Hp Hpc) as [e ->].
      eexists; reflexivity.
  - left. unfold addNewCertificate. rewrite (verifyRootCertificates_missing h Hm).
    eexists; reflexivity.
Qed.

(** C10. [tls.yml] is read and parsed before any issuance step.  In every
    run, whatever command or file write occurs is preceded by the read of
    [tls.yml]; and when the file cannot be read, does not parse, or does not
    have the [{tls: {certificates: [...]}}] shape, the run does not return
    normally (it ends on [process.exit(1)] or on an exception), runs no
    command and writes no file, so the store is left as it was. *)
Theorem C10_config_checked_before_issuance (h : host) (domainName : string) :
  (forall pre e post,
      trace (addNewCertificate join parse stringify h domainName) = pre ++ e :: post ->
      is_exec e || is_write e = true ->
      In (readFileSync (certsConfigPath join h)) pre)
  /\ (parsed_certificates parse h = None ->
      (result (addNewCertificate join parse stringify h domainName) = Exit 1
       \/ exists err, result (addNewCertificate join parse stringify h domainName) = Throw err)
      /\ execs (trace (addNewCertificate join parse stringify h domainName)) = []
      /\ writes (trace (addNewCertificate join parse stringify h domainName)) = []).
Proof.
  split.
  - intros pre e post Ht He.
    destruct (addNewCertificate_reads_first h domainName) as [[msg Hr] | [tail Hr]];
      rewrite Hr in Ht.
    + destruct pre as [|e1 [|e2 [|e3 pre]]]; simpl in Ht.
      * injection Ht as <- _. discriminate.
      * injection Ht as _ <- _. discriminate.
      * injection Ht as _ _ Ht. discriminate.
      * injection Ht as _ _ Ht. discriminate.
    + destruct pre as [|e1 [|e2 pre]]; simpl in Ht.
      * injection Ht as <- _. discriminate.
      * injection Ht as _ <- _. discriminate.
      * injection Ht as _ <- _. right. left. reflexivity.
  - intros Hn. destruct (verifyRootCertificates_cases h) as [[Hp _] | [Hm _]].
    + destruct (addNewCertificate_no_config h domainName Hp Hn) as [err ->].
      split; [right; eexists; reflexivity | split; reflexivity].
    + unfold addNewCertificate. rewrite (verifyRootCertificates_missing h Hm).
      split; [left; reflexivity | split; reflexivity].
Qed.

(** C1. When an entry of [tls.yml] is registered for the requested domain
    (its [certFile] is the path template filled with that domain), the run
    ends with status 1, no command is executed, nothing is written, and the
    text of [tls.yml] after the run is the text before it.  When every entry
    has a string [certFile], as a [TlsConfig] does, the run ends on
    [process.exit(1)] itself. *)
Theorem C1_registered_domain_rejected (h : host) (domainName : string)
        (items : list value) (cert : value) :
  parsed_certificates parse h = Some items ->
  In cert items ->
  extracted_domain cert = Some domainName ->
  exit_code (result (addNewCertificate join parse stringify h domainName)) = 1
  /\ execs (trace (addNewCertificate join parse stringify h domainName)) = []
  /\ writes (trace (addNewCertificate join parse stringify h domainName)) = []
  /\ file_after (certsConfigPath join h) (tls_yml h)
       (trace (addNewCertificate join parse stringify h domainName)) = tls_yml h
  /\ (Forall (fun c => is_Some (certFile_of c)) items ->
      result (addNewCertificate join parse stringify h domainName) = Exit 1).
Proof.
  intros Hpc Hin Hd.
  assert (Hmain :
    exit_code (result (addNewCertificate join parse stringify h domainName)) = 1
    /\ execs (trace (addNewCertificate join parse stringify h domainName)) = []
    /\ writes (trace (addNewCertificate join parse stringify h domainName)) = []
    /\ (Forall (fun c => is_Some (certFile_of c)) items ->
        result (addNewCertificate join parse stringify h domainName) = Exit 1)).
  { destruct (verifyRootCertificates_cases h) as [[Hp _] | [Hm _]].
    - apply parsed_certificates_some in Hpc as (text & v & Hf & Hy & Hs).
      rewrite (addNewCertificate_shaped h domainName text v items Hp Hf Hy Hs).
      pose proof (find_result_conflict_any domainName items cert Hin Hd) as Hnn.
      pose proof (fun Hall => find_result_conflict domainName items cert Hall Hin Hd) as Hwf.
      destruct (find_result_cases domainName items) as [E | [[found E] | E]].
      + contradiction.
      + rewrite E. repeat split.
      + rewrite E. repeat split. intros Hall. destruct (Hwf Hall) as [found E'].
        congruence.
    - unfold addNewCertificate. rewrite (verifyRootCertificates_missing h Hm).
      repeat split. }
  destruct Hmain as (H1 & H2 & H3 & H4). repeat split; try assumption.
  apply file_after_no_writes. exact H3.
Qed.

(** A normal return happens on one path only. *)
Lemma addNewCertificate_success (h : host) (domainName : string) :
  result (addNewCertificate join parse stringify h domainName) = Return tt ->
  exists text v items v',
    roots_present h
    /\ tls_yml h = Some text /\ parse text = Some v
    /\ certificates_of v = Some items
    /\ find_result domainName items = Return None
    /\ with_certificate v (of_Certificate (new_entry domainName)) = Some v'
    /\ trace (addNewCertificate join parse stringify h domainName) =
         [shell_ls (certsDir join h); readFileSync (certsConfigPath join h)]
           ++ trace (generateCertificate join h domainName)
           ++ [writeFileSync (certsConfigPath join h) (stringify v')].
Proof.
  intros Hr. destruct (verifyRootCertificates_cases h) as [[Hp _] | [Hm _]].
  - destruct (parsed_certificates parse h) as [items|] eqn:Hpc.
    + apply parsed_certificates_some in Hpc as (text & v & Hf & Hy & Hs).
      rewrite (addNewCertificate_shaped h domainName text v items Hp Hf Hy Hs) in Hr |- *.
      destruct (find_result domainName items) as [[found|]| |] eqn:E; try discriminate.
      destruct (with_certificate v _) as [v'|] eqn:Hw;
        destruct (creatable h (domainName +:+ ".ext")); try discriminate.
      exists text, v, items, v'. split; [exact Hp|].
      repeat split; try assumption; reflexivity.
    + destruct (addNewCertificate_no_config h domainName Hp Hpc) as [e He].
      rewrite He in Hr. discriminate.
  - unfold addNewCertificate in Hr. rewrite (verifyRootCertificates_missing h Hm) in Hr.
    discriminate.
Qed.

(** C6. A registration that succeeds rewrites [tls.yml] with the document
    it read, in which the [certificates] sequence has one more element: the
    new entry comes last, every earlier entry keeps its index and its value,
    and the length grows by one.  The rewrite is the only write to
    [tls.yml] and the last effect of the run. *)
Theorem C6_registration_appends (h : host) (domainName : string) :
  result (addNewCertificate join parse stringify h domainName) = Return tt ->
  exists (items : list value) (v' : value) (items' : list value),
    parsed_certificates parse h = Some items
    /\ file_after (certsConfigPath join h) (tls_yml h)
         (trace (addNewCertificate join parse stringify h domainName))
       = Some (stringify v')
    /\ certificates_of v' = Some items'
    /\ items' = items ++ [of_Certificate (new_entry domainName)]
    /\ length items' = S (length items)
    /\ (forall (i : nat) (c : value), items !! i = Some c -> items' !! i = Some c)
    /\ items' !! length items = Some (of_Certificate (new_entry domainName)).
Proof.
  intros Hr.
  destruct (addNewCertificate_success h domainName Hr)
    as (text & v & items & v' & Hp & Hf & Hy & Hs & Hfind & Hw & Ht).
  destruct (with_certificate_shape v (of_Certificate (new_entry domainName)) items Hs)
    as (v2 & Hw2 & Hs2).
  assert (v2 = v') by congruence. subst v2.
  exists items, v', (items ++ [of_Certificate (new_entry domainName)]).
  split. { unfold parsed_certificates. rewrite Hf, Hy. exact Hs. }
  split. { rewrite Ht, !List.app_assoc. apply file_after_last_write. }
  split; [exact Hs2|]. split; [reflexivity|].
  split. { rewrite length_app. simpl. lia. }
  split.
  - intros i c Hi. apply lookup_app_l_Some. exact Hi.
  - rewrite lookup_app_r by lia. rewrite Nat.sub_diag. reflexivity.
Qed.

(** *** Names without separators *)

Lemma forallb_app (f : ascii -> bool) (s t : string) :
  Str.forallb f (s +:+ t) = Str.forallb f s && Str.forallb f t.
Proof.
  induction s as [|c s IH]; [reflexivity|].
  rewrite StrFacts.app_cons. simpl. rewrite IH, andb_assoc. reflexivity.
Qed.

(** The extension file of a domain without path separators is created in
    the store itself. *)
Lemma creatable_plain (h : host) (domainName : string) :
  has_separator (os h) domainName = false ->
  creatable h (domainName +:+ ".ext") = true.
Proof.
  unfold creatable, has_separator. intros Hd. apply negb_false_iff in Hd.
  rewrite forallb_app, Hd.
  unfold is_separator. destruct (String.eqb (os h) "win32"); reflexivity.
Qed.

Lemma registration_on_empty_registry (h : host) (domainName text : string) (v : value) :
  roots_present h ->
  tls_yml h = Some text ->
  parse text = Some v ->
  certificates_of v = Some [] ->
  has_separator (os h) domainName = false ->
  exists v',
    with_certificate v (of_Certificate (new_entry domainName)) = Some v'
    /\ certificates_of v' = Some [of_Certificate (new_entry domainName)]
    /\ addNewCertificate join parse stringify h domainName =
         ([shell_ls (certsDir join h); readFileSync (certsConfigPath join h)]
            ++ trace (generateCertificate join h domainName)
            ++ [writeFileSync (certsConfigPath join h) (stringify v')],
          Return tt).
Proof.
  intros Hp Hf Hy Hs Hd.
  destruct (with_certificate_shape v (of_Certificate (new_entry domainName)) [] Hs)
    as (v' & Hw & Hs').
  exists v'. split; [exact Hw|]. split; [exact Hs'|].
  rewrite (addNewCertificate_shaped h domainName text v [] Hp Hf Hy Hs).
  simpl find_result. rewrite Hw, (creatable_plain h domainName Hd). reflexivity.
Qed.

Lemma BlockYaml_parse_document (text : string) (v : value) :
  BlockYaml.parse text = Some v -> exists items, v = BlockYaml.document items.
Proof.
  unfold BlockYaml.parse.
  destruct (Str.lines text) as [|l1 [|l2 rest]]; try discriminate.
  destruct (String.eqb l1 "tls:"); try discriminate.
  destruct (String.eqb l2 "  certificates: []").
  - destruct rest as [|l [|]]; try discriminate.
    destruct (String.eqb l EmptyString); try discriminate.
    intros [= <-]. eauto.
  - destruct (String.eqb l2 "  certificates:"); try discriminate.
    destruct (BlockYaml.parse_items rest) as [[|i its]|]; try discriminate.
    intros [= <-]. eauto.
Qed.

(** C2. Registering [foo.test] when [tls.yml] parses to a document whose
    [certificates] sequence is empty: the run returns, the document given to
    [stringify] holds a sequence of length 1 whose only entry has
    [certFile = /etc/ssl/traefik/foo.test.crt] and
    [keyFile = /etc/ssl/traefik/foo.test.key], [tls.yml] holds the block-style
    text of that document, and parsing that text gives the document, hence
    the entry, again.  The codec is the one of [BlockYaml]. *)
Theorem C2_foo_test_round_trip (h : host) (text : string) (v : value) :
  roots_present h ->
  tls_yml h = Some text ->
  BlockYaml.parse text = Some v ->
  certificates_of v = Some [] ->
  exists (v' : value) (content : string),
    result (addNewCertificate join BlockYaml.parse BlockYaml.stringify h "foo.test")
      = Return tt
    /\ with_certificate v (of_Certificate (new_entry "foo.test")) = Some v'
    /\ certificates_of v' =
         Some [VObj [("certFile", VStr "/etc/ssl/traefik/foo.test.crt");
                     ("keyFile", VStr "/etc/ssl/traefik/foo.test.key")]]
    /\ file_after (certsConfigPath join h) (tls_yml h)
         (trace (addNewCertificate join BlockYaml.parse BlockYaml.stringify h "foo.test"))
       = Some content
    /\ content = BlockYaml.stringify v'
    /\ content =
         "tls:" +:+ Str.nl +:+ "  certificates:" +:+ Str.nl +:+
         "    - certFile: /etc/ssl/traefik/foo.test.crt" +:+ Str.nl +:+
         "      keyFile: /etc/ssl/traefik/foo.test.key" +:+ Str.nl
    /\ BlockYaml.parse content = Some v'.
Proof.
  intros Hp Hf Hy Hs.
  destruct (BlockYaml_parse_document text v Hy) as [items ->].
  simpl in Hs. injection Hs as ->.
  exists (BlockYaml.document [of_Certificate (new_entry "foo.test")]).
  exists (BlockYaml.stringify (BlockYaml.document [of_Certificate (new_entry "foo.test")])).
  unfold addNewCertificate, readConfig, yaml_parse.
  destruct (verifyRootCertificates_present h Hp) as [d Hd].
  rewrite Hd, Hf. simpl bind. rewrite Hy.
  assert (Hc : creatable h ("foo.test" +:+ ".ext") = true).
  { apply creatable_plain. unfold has_separator, is_separator.
    destruct (String.eqb (os h) "win32"); reflexivity. }
  unfold generateCertificate, writeInStore. rewrite Hc.
  split; [reflexivity|]. split; [reflexivity|]. split; [reflexivity|].
  split.
  { simpl. rewrite String.eqb_refl.
    destruct (String.eqb _ (certsConfigPath join h)); reflexivity. }
  split; [reflexivity|]. split; vm_compute; reflexivity.
Qed.

(** *** The domain prompt *)

Lemma validate_accepts (answer : string) :
  validate answer = inr tt <->
  answer <> EmptyString /\ exists p, answer = p +:+ ".test".
Proof.
  unfold validate. rewrite <- StrFacts.endsWith_spec.
  destruct answer as [|c s]; simpl.
  - split; [discriminate | intros [H _]; contradiction].
  - destruct (Str.endsWith (String c s) ".test"); simpl.
    + split; [intros _; split; [discriminate | reflexivity] | reflexivity].
    + split; [discriminate | intros [_ H]; discriminate].
Qed.

Lemma ask_loop_rejected (answer msg : string) (rest : list string) :
  validate answer = inl msg ->
  ask_loop (answer :: rest) =
    (prompt_rejected answer msg :: trace (ask_loop rest), result (ask_loop rest)).
Proof.
  intros Hv. simpl. rewrite Hv. unfold bind, emit, trace, result.
  destruct (ask_loop rest) as [t o]. reflexivity.
Qed.

Lemma trace_bind_return {A B} (m : M A) (k : A -> M B) (a : A) :
  result m = Return a ->
  trace (bind m k) = trace m ++ trace (k a) /\ result (bind m k) = result (k a).
Proof.
  destruct m as [t o]. simpl. intros ->. unfold bind, trace, result.
  destruct (k a). split; reflexivity.
Qed.

Lemma trace_bind_stop {A B} (m : M A) (k : A -> M B) :
  (forall a, result m <> Return a) ->
  trace (bind m k) = trace m
  /\ ((exists c, result m = Exit c /\ result (bind m k) = Exit c)
      \/ (exists e, result m = Throw e /\ result (bind m k) = Throw e)).
Proof.
  destruct m as [t [a|c|e]]; simpl; intros Hn.
  - destruct (Hn a); reflexivity.
  - split; [reflexivity | left; eauto].
  - split; [reflexivity | right; eauto].
Qed.

(** [start] after the platform gate: the prompts, then one of the flows. *)
Lemma start_supported (h : host) :
  includes supported (os h) = true ->
  start join parse stringify h =
    if String.eqb (action h) "root_ca" then
      (advisory h ++ prompt_choice "What action to execute ?" actions
         :: trace (createCertificateAuthority join h),
       result (createCertificateAuthority join h))
    else if String.eqb (action h) "site_cert" then
      match ask_loop (answers h) with
      | (t, Return domain) =>
          (advisory h ++ prompt_choice "What action to execute ?" actions
             :: prompt_ask "Domain to use for this site" "It must end with `.test`"
             :: t ++ trace (addNewCertificate join parse stringify h domain),
           result (addNewCertificate join parse stringify h domain))
      | (t, Exit c) =>
          (advisory h ++ prompt_choice "What action to execute ?" actions
             :: prompt_ask "Domain to use for this site" "It must end with `.test`" :: t, Exit c)
      | (t, Throw e) =>
          (advisory h ++ prompt_choice "What action to execute ?" actions
             :: prompt_ask "Domain to use for this site" "It must end with `.test`" :: t, Throw e)
      end
    else (advisory h ++ [prompt_choice "What action to execute ?" actions], Return tt).
Proof.
  intros Hinc. unfold start, choice, ask, advisory. rewrite Hinc. simpl.
  destruct (String.eqb (os h) "win32"); simpl;
    (destruct (String.eqb (action h) "root_ca");
     [destruct (createCertificateAuthority join h) as [t o]; reflexivity|]);
    (destruct (String.eqb (action h) "site_cert"); [|reflexivity]);
    destruct (ask_loop (answers h)) as [t [a| |]]; simpl; try reflexivity;
    destruct (addNewCertificate join parse stringify h a) as [t' o']; reflexivity.
Qed.

Lemma execs_app (t1 t2 : list event) : execs (t1 ++ t2) = execs t1 ++ execs t2.
Proof. apply List.filter_app. Qed.

Lemma writes_app (t1 t2 : list event) : writes (t1 ++ t2) = writes t1 ++ writes t2.
Proof. apply List.filter_app. Qed.

Lemma advisory_quiet (h : host) : execs (advisory h) = [] /\ writes (advisory h) = [].
Proof. unfold advisory. destruct (String.eqb (os h) "win32"); split; reflexivity. Qed.

(** A rejected first answer changes nothing but the feedback shown. *)
Lemma start_skips_rejected (h : host) (answer msg : string) (rest : list string) :
  validate answer = inl msg ->
  answers h = answer :: rest ->
  result (start join parse stringify h)
    = result (start join parse stringify (set_answers h rest))
  /\ execs (trace (start join parse stringify h))
     = execs (trace (start join parse stringify (set_answers h rest)))
  /\ writes (trace (start join parse stringify h))
     = writes (trace (start join parse stringify (set_answers h rest))).
Proof.
  intros Hv Ha.
  destruct (includes supported (os h)) eqn:Hinc.
  - rewrite (start_supported h Hinc), (start_supported (set_answers h rest) Hinc).
    change (advisory (set_answers h rest)) with (advisory h).
    change (action (set_answers h rest)) with (action h).
    change (answers (set_answers h rest)) with rest.
    change (createCertificateAuthority join (set_answers h rest))
      with (createCertificateAuthority join h).
    change (addNewCertificate join parse stringify (set_answers h rest))
      with (addNewCertificate join parse stringify h).
    rewrite Ha, (ask_loop_rejected _ _ _ Hv).
    destruct (String.eqb (action h) "root_ca"); [repeat split|].
    destruct (String.eqb (action h) "site_cert"); [|repeat split].
    destruct (advisory_quiet h) as [He Hw].
    destruct (ask_loop rest) as [t [a| |]]; unfold trace, result; simpl fst; simpl snd;
      rewrite !execs_app, !writes_app, He, Hw; repeat split.
  - unfold start. change (os (set_answers h rest)) with (os h). rewrite Hinc.
    repeat split.
Qed.

(** C5. The validation callback accepts an answer exactly when it is not
    empty and ends with [.test].  A rejected answer only makes the prompt
    show its message and ask again: the run goes on as if the operator had
    typed the remaining answers directly, with the same commands, the same
    writes and the same outcome. *)
Theorem C5_domain_validation (answer : string) :
  (validate answer = inr tt <->
   answer <> EmptyString /\ exists p, answer = p +:+ ".test")
  /\ (forall msg, validate answer = inl msg ->
      (forall rest,
          ask_loop (answer :: rest) =
            (prompt_rejected answer msg :: trace (ask_loop rest), result (ask_loop rest)))
      /\ (forall h rest, answers h = answer :: rest ->
          result (start join parse stringify h)
            = result (start join parse stringify (set_answers h rest))
          /\ execs (trace (start join parse stringify h))
             = execs (trace (start join parse stringify (set_answers h rest)))
          /\ writes (trace (start join parse stringify h))
             = writes (trace (start join parse stringify (set_answers h rest))))).
Proof.
  split; [apply validate_accepts|].
  intros msg Hv. split.
  - intros rest. apply ask_loop_rejected; exact Hv.
  - intros h rest Ha. eapply start_skips_rejected; eassumption.
Qed.

(** C9. The bare suffix [.test] passes the validation, and typing it at the
    domain prompt of the registration flow hands it to [addNewCertificate]:
    after the prompts the run is the run of [addNewCertificate] on [.test].
    With both root files in the store and an empty registry the three
    issuance commands are executed for [.test] and the run returns. *)
Theorem C9_bare_suffix_accepted :
  validate ".test" = inr tt
  /\ (forall h rest,
      In (os h) ["darwin"; "linux"; "win32"] ->
      action h = "site_cert" ->
      answers h = ".test" :: rest ->
      (exists pre,
          trace (start join parse stringify h)
            = pre ++ trace (addNewCertificate join parse stringify h ".test")
          /\ execs pre = [] /\ writes pre = [])
      /\ result (start join parse stringify h)
         = result (addNewCertificate join parse stringify h ".test")
      /\ (roots_present h -> parsed_certificates parse h = Some [] ->
          result (start join parse stringify h) = Return tt
          /\ execs (trace (start join parse stringify h))
             = execs (trace (generateCertificate join h ".test")))).
Proof.
  split; [reflexivity|].
  intros h rest Hos Hact Ha.
  assert (Hinc : includes supported (os h) = true) by (apply includes_In; exact Hos).
  pose proof (start_supported h Hinc) as Hstart.
  rewrite Hact, Ha in Hstart. simpl in Hstart. rewrite Hstart.
  destruct (advisory_quiet h) as [He Hw].
  split; [|split; [reflexivity|]].
  - exists (advisory h ++ [prompt_choice "What action to execute ?" actions;
                           prompt_ask "Domain to use for this site" "It must end with `.test`"]).
    unfold trace at 1. simpl fst. rewrite <- List.app_assoc.
    rewrite execs_app, writes_app, He, Hw. repeat split.
  - intros Hp Hpc. apply parsed_certificates_some in Hpc as (text & v & Hf & Hy & Hs).
    destruct (with_certificate_shape v (of_Certificate (new_entry ".test")) [] Hs)
      as (v' & Hw' & _).
    rewrite (addNewCertificate_shaped h ".test" text v [] Hp Hf Hy Hs).
    assert (Hc : creatable h (".test" +:+ ".ext") = true).
    { apply creatable_plain. unfold has_separator, is_separator.
      destruct (String.eqb (os h) "win32"); reflexivity. }
    simpl find_result. unfold generateCertificate, writeInStore.
    rewrite Hw', Hc. split; [reflexivity|].
    unfold trace at 1. simpl fst. rewrite execs_app, He. reflexivity.
Qed.

End Runs.

(** ** The extension file *)

Lemma lines_aux_nonempty (cur s : string) : Str.lines_aux cur s <> [].
Proof.
  revert cur. induction s as [|c s IH]; intros cur; simpl; [discriminate|].
  destruct (Ascii.eqb c "010"); [discriminate | apply IH].
Qed.

(** Lines of a text continued by another one: the last line goes on. *)
Lemma lines_aux_app (cur s t : string) :
  Str.lines_aux cur (s +:+ t) =
    removelast (Str.lines_aux cur s)
      ++ Str.lines_aux (List.last (Str.lines_aux cur s) EmptyString) t.
Proof.
  revert cur. induction s as [|c s IH]; intros cur.
  - reflexivity.
  - rewrite StrFacts.app_cons. simpl Str.lines_aux.
    destruct (Ascii.eqb c "010").
    + rewrite IH. pose proof (lines_aux_nonempty EmptyString s) as Hne.
      destruct (Str.lines_aux EmptyString s) as [|l ls] eqn:E; [contradiction|].
      reflexivity.
    + apply IH.
Qed.

Lemma lines_aux_single_line (cur s : string) :
  Str.single_line s = true -> Str.lines_aux cur s = [cur +:+ s].
Proof.
  revert cur. induction s as [|c s IH]; intros cur Hs; simpl.
  - rewrite StrFacts.app_empty_r. reflexivity.
  - unfold Str.single_line in Hs. simpl in Hs. apply andb_true_iff in Hs as [Hc Hs].
    apply negb_true_iff in Hc. rewrite Hc, (IH _ Hs), StrFacts.app_assoc. reflexivity.
Qed.

(** The lines of the extension file written for a domain typed on one
    line. *)
Lemma createExtensionString_lines (domain : string) :
  Str.single_line domain = true ->
  Str.lines (createExtensionString domain) =
    ["authorityKeyIdentifier=keyid,issuer";
     "basicConstraints=CA:FALSE";
     "keyUsage = digitalSignature, nonRepudiation, keyEncipherment, dataEncipherment";
     "subjectAltName = @alt_names";
     EmptyString;
     "[alt_names]";
     "DNS.1 = " +:+ domain;
     "DNS.2 = *." +:+ domain;
     EmptyString].
Proof.
  intros Hs.
  change (createExtensionString domain) with
    (("authorityKeyIdentifier=keyid,issuer" +:+ Str.nl +:+
      "basicConstraints=CA:FALSE" +:+ Str.nl +:+
      "keyUsage = digitalSignature, nonRepudiation, keyEncipherment, dataEncipherment" +:+ Str.nl +:+
      "subjectAltName = @alt_names" +:+ Str.nl +:+ Str.nl +:+
      "[alt_names]" +:+ Str.nl +:+ "DNS.1 = ")
     +:+ (domain +:+ (Str.nl +:+ ("DNS.2 = *." +:+ (domain +:+ Str.nl))))).
  unfold Str.lines. rewrite lines_aux_app.
  match goal with |- removelast ?l ++ _ = _ =>
    let l' := eval vm_compute in l in change l with l' end.
  cbn [removelast List.last List.app].
  rewrite lines_aux_app, (lines_aux_single_line _ domain Hs).
  cbn [removelast List.last List.app].
  change (Str.nl +:+ ("DNS.2 = *." +:+ (domain +:+ Str.nl)))
    with (String "010" ("DNS.2 = *." +:+ (domain +:+ Str.nl))).
  cbn [Str.lines_aux Ascii.eqb Bool.eqb]. 
  rewrite (lines_aux_app EmptyString "DNS.2 = *.").
  match goal with |- context [Str.lines_aux EmptyString "DNS.2 = *."] =>
    change (Str.lines_aux EmptyString "DNS.2 = *.") with ["DNS.2 = *."] end.
  cbn [removelast List.last List.app].
  rewrite lines_aux_app, (lines_aux_single_line _ domain Hs).
  cbn [removelast List.last List.app].
  reflexivity.
Qed.

(** C7. The extension file written for a domain is the fixed preamble, in
    which [basicConstraints=CA:FALSE] is a line, followed by two lines:
    [DNS.1] set to the domain and [DNS.2] set to the domain behind [*.].
    For a domain typed on one line the [[alt_names]] section therefore holds
    exactly these two entries. *)
Theorem C7_extension_file (domain : string) :
  In "basicConstraints=CA:FALSE" (Str.lines (createExtensionString domain))
  /\ (exists preamble,
        createExtensionString domain =
          preamble +:+ "[alt_names]" +:+ Str.nl
                   +:+ "DNS.1 = " +:+ domain +:+ Str.nl
                   +:+ "DNS.2 = *." +:+ domain +:+ Str.nl
        /\ In "basicConstraints=CA:FALSE" (Str.lines preamble)
        /\ alt_names preamble = [])
  /\ (Str.single_line domain = true ->
      alt_names (createExtensionString domain) =
        [("DNS.1", domain); ("DNS.2", "*." +:+ domain)]).
Proof.
  split; [|split].
  - change (createExtensionString domain) with
      (("authorityKeyIdentifier=keyid,issuer" +:+ Str.nl +:+
        "basicConstraints=CA:FALSE" +:+ Str.nl)
       +:+ ("keyUsage = digitalSignature, nonRepudiation, keyEncipherment, dataEncipherment" +:+ Str.nl +:+
            "subjectAltName = @alt_names" +:+ Str.nl +:+ Str.nl +:+
            "[alt_names]" +:+ Str.nl +:+
            "DNS.1 = " +:+ domain +:+ Str.nl +:+
            "DNS.2 = *." +:+ domain +:+ Str.nl)).
    unfold Str.lines. rewrite lines_aux_app. apply in_or_app. left.
    vm_compute. right. left. reflexivity.
  - exists ("authorityKeyIdentifier=keyid,issuer" +:+ Str.nl +:+
            "basicConstraints=CA:FALSE" +:+ Str.nl +:+
            "keyUsage = digitalSignature, nonRepudiation, keyEncipherment, dataEncipherment" +:+ Str.nl +:+
            "subjectAltName = @alt_names" +:+ Str.nl +:+ Str.nl).
    split; [reflexivity|]. split; [|reflexivity].
    vm_compute. right. left. reflexivity.
  - intros Hs. unfold alt_names. rewrite (createExtensionString_lines domain Hs).
    reflexivity.
Qed.

(** ** The properties on the sample hosts *)

(** The whole run of a first registration, as the operator sees it. *)
Example registration_run :
  Sample.run_start Sample.fresh =
    ([prompt_choice "What action to execute ?" actions;
      prompt_ask "Domain to use for this site" "It must end with `.test`";
      shell_ls "/home/dev/.certs";
      readFileSync "/home/dev/.apps/local_env/with_custom_domains/tls.yml";
      shell_exec "openssl genrsa -out foo.test.key 2048" "/home/dev/.certs";
      shell_exec ("openssl req -new -key foo.test.key -out foo.test.csr -subj "
                  +:+ Str.dquote +:+ "/C=FR/ST=azerty/L=azerty/O=azerty/OU=azerty/CN=foo.test"
                  +:+ Str.dquote)
                 "/home/dev/.certs";
      writeFileSync "/home/dev/.certs/foo.test.ext" (createExtensionString "foo.test");
      shell_exec "openssl x509 -req -in foo.test.csr -CA root.pem -CAkey root.key -CAcreateserial -out foo.test.crt -days 825 -sha256 -extfile foo.test.ext"
                 "/home/dev/.certs";
      writeFileSync "/home/dev/.apps/local_env/with_custom_domains/tls.yml"
        ("tls:" +:+ Str.nl +:+ "  certificates:" +:+ Str.nl +:+
         "    - certFile: /etc/ssl/traefik/foo.test.crt" +:+ Str.nl +:+
         "      keyFile: /etc/ssl/traefik/foo.test.key" +:+ Str.nl)],
     Return tt).
Proof. vm_compute. reflexivity. Qed.

(** Registering the same domain again is refused. *)
Example second_registration_run :
  Sample.run_start Sample.registered =
    ([prompt_choice "What action to execute ?" actions;
      prompt_ask "Domain to use for this site" "It must end with `.test`";
      shell_ls "/home/dev/.certs";
      readFileSync "/home/dev/.apps/local_env/with_custom_domains/tls.yml";
      log Error "This domain is already registered locally. Please choose another one."],
     Exit 1).
Proof. vm_compute. reflexivity. Qed.

(** A domain that leads into a missing directory: the key and request
    commands run, the write of the extension file throws, and neither the
    signing command nor the rewrite of [tls.yml] happens.  A domain that
    leads to the home directory is written there. *)
Example nested_registration_run :
  Sample.run_start Sample2.nested =
    ([prompt_choice "What action to execute ?" actions;
      prompt_ask "Domain to use for this site" "It must end with `.test`";
      shell_ls "/home/dev/.certs";
      readFileSync "/home/dev/.apps/local_env/with_custom_domains/tls.yml";
      shell_exec "openssl genrsa -out sub/x.test.key 2048" "/home/dev/.certs";
      shell_exec ("openssl req -new -key sub/x.test.key -out sub/x.test.csr -subj "
                  +:+ Str.dquote +:+ "/C=FR/ST=azerty/L=azerty/O=azerty/OU=azerty/CN=sub/x.test"
                  +:+ Str.dquote)
                 "/home/dev/.certs"],
     Throw SystemError)
  /\ creatable Sample2.nested "sub/x.test.ext" = false
  /\ creatable Sample2.nested "../x.test.ext" = true
  /\ creatable Sample2.nested "x.test.ext" = true.
Proof. repeat split; vm_compute; reflexivity. Qed.

(** The pattern on a few paths: digits are outside the class, the group is
    never empty, and only the last [.crt] is the suffix. *)
Example regexp_match_samples :
  regexp_match "/etc/ssl/traefik/foo.test.crt" = Some "foo.test"
  /\ regexp_match "/etc/ssl/traefik/foo1.test.crt" = None
  /\ regexp_match "/etc/ssl/traefik/.crt" = None
  /\ regexp_match "/etc/ssl/traefik/a.crt.crt" = Some "a.crt"
  /\ regexp_match "/etc/ssl/traefik/foo.test.key" = None.
Proof. repeat split. Qed.

(** [app.test] is registered on [Sample.registered]: registering it again is refused. *)
Lemma C1_witness :
  (parsed_certificates BlockYaml.parse Sample.registered = Some [Sample.app_entry]
   /\ In Sample.app_entry [Sample.app_entry]
   /\ extracted_domain Sample.app_entry = Some "app.test")
  /\ exit_code (result (Sample.run_add Sample.registered "app.test")) = 1
  /\ execs (trace (Sample.run_add Sample.registered "app.test")) = []
  /\ writes (trace (Sample.run_add Sample.registered "app.test")) = []
  /\ file_after (Sample.config_path Sample.registered) (tls_yml Sample.registered)
       (trace (Sample.run_add Sample.registered "app.test"))
     = tls_yml Sample.registered
  /\ (Forall (fun c => is_Some (certFile_of c)) [Sample.app_entry] ->
      result (Sample.run_add Sample.registered "app.test") = Exit 1).
Proof.
  assert (H1 : parsed_certificates BlockYaml.parse Sample.registered
               = Some [Sample.app_entry]) by (vm_compute; reflexivity).
  assert (H2 : In Sample.app_entry [Sample.app_entry]) by (left; reflexivity).
  assert (H3 : extracted_domain Sample.app_entry = Some "app.test") by reflexivity.
  split; [auto|].
  exact (C1_registered_domain_rejected PosixPath.join BlockYaml.parse BlockYaml.stringify
           Sample.registered "app.test" [Sample.app_entry] Sample.app_entry H1 H2 H3).
Defined.

(** [foo.test] on [Sample.fresh], whose [tls.yml] holds an empty sequence. *)
Lemma C2_witness :
  (roots_present Sample.fresh
   /\ tls_yml Sample.fresh = Some Sample.empty_registry
   /\ BlockYaml.parse Sample.empty_registry = Some (BlockYaml.document [])
   /\ certificates_of (BlockYaml.document []) = Some [])
  /\ exists (v' : value) (content : string),
    result (Sample.run_add Sample.fresh "foo.test") = Return tt
    /\ with_certificate (BlockYaml.document []) (of_Certificate (new_entry "foo.test"))
       = Some v'
    /\ certificates_of v' = Some [Sample.foo_entry]
    /\ file_after (Sample.config_path Sample.fresh) (tls_yml Sample.fresh)
         (trace (Sample.run_add Sample.fresh "foo.test"))
       = Some content
    /\ content = BlockYaml.stringify v'
    /\ content =
         "tls:" +:+ Str.nl +:+ "  certificates:" +:+ Str.nl +:+
         "    - certFile: /etc/ssl/traefik/foo.test.crt" +:+ Str.nl +:+
         "      keyFile: /etc/ssl/traefik/foo.test.key" +:+ Str.nl
    /\ BlockYaml.parse content = Some v'.
Proof.
  assert (H1 : roots_present Sample.fresh) by (split; vm_compute; reflexivity).
  assert (H2 : tls_yml Sample.fresh = Some Sample.empty_registry) by reflexivity.
  assert (H3 : BlockYaml.parse Sample.empty_registry = Some (BlockYaml.document []))
    by (vm_compute; reflexivity).
  assert (H4 : certificates_of (BlockYaml.document []) = Some []) by reflexivity.
  split; [auto|].
  exact (C2_foo_test_round_trip PosixPath.join Sample.fresh Sample.empty_registry
           (BlockYaml.document []) H1 H2 H3 H4).
Defined.

(** [Sample.half_rooted] has no [root.key]: registration stops at the listing. *)
Lemma C3_witness :
  ("root.pem" ∉ store Sample.half_rooted \/ "root.key" ∉ store Sample.half_rooted)
  /\ result (Sample.run_add Sample.half_rooted "foo.test") = Exit 1
  /\ execs (trace (Sample.run_add Sample.half_rooted "foo.test")) = [].
Proof.
  assert (H : "root.pem" ∉ store Sample.half_rooted
              \/ "root.key" ∉ store Sample.half_rooted).
  { right. vm_compute. discriminate. }
  split; [exact H|].
  destruct (C3_missing_root_rejected PosixPath.join BlockYaml.parse BlockYaml.stringify
              Sample.half_rooted "foo.test" H) as (Hrun & He & _).
  split; [|exact He]. unfold Sample.run_add. rewrite Hrun. reflexivity.
Defined.

(** Authority creation on [Sample.fresh] (both root files) and on [Sample.half_rooted]. *)
Lemma C4_witness :
  Sample.run_authority Sample.fresh =
    ([shell_ls "/home/dev/.certs"; log Info "Root certificate authority already exist."],
     Exit 0)
  /\ execs (trace (Sample.run_authority Sample.half_rooted)) =
       [shell_exec "openssl genrsa -des3 -out root.key 2048" "/home/dev/.certs";
        shell_exec ("openssl req -x509 -new -nodes -key root.key -sha256 -days 1825 -out root.pem -subj "
                    +:+ Str.dquote +:+ "/C=FR/ST=azerty/L=azerty/O=azerty/OU=azerty/CN=Root CA"
                    +:+ Str.dquote)
                   "/home/dev/.certs"]
  /\ result (Sample.run_authority Sample.half_rooted) = Return tt.
Proof.
  split.
  - apply (C4_authority_creation PosixPath.join Sample.fresh _ eq_refl).
    split; vm_compute; reflexivity.
  - apply (C4_authority_creation PosixPath.join Sample.half_rooted _ eq_refl).
    intros [_ Hk]. vm_compute in Hk. discriminate.
Defined.

(** [foo] is rejected, [foo.test] accepted: [Sample.hesitant] ends as [Sample.fresh] does. *)
Lemma C5_witness :
  validate "foo.test" = inr tt
  /\ validate "foo" = inl "Your domain has to end with the `.test` extension."
  /\ result (Sample.run_start Sample.hesitant) = result (Sample.run_start Sample.fresh)
  /\ execs (trace (Sample.run_start Sample.hesitant))
     = execs (trace (Sample.run_start Sample.fresh))
  /\ writes (trace (Sample.run_start Sample.hesitant))
     = writes (trace (Sample.run_start Sample.fresh)).
Proof.
  split.
  - apply (C5_domain_validation PosixPath.join BlockYaml.parse BlockYaml.stringify "foo.test").
    split; [discriminate | exists "foo"; reflexivity].
  - split; [reflexivity|].
    apply (proj2 (proj2 (C5_domain_validation PosixPath.join BlockYaml.parse
                           BlockYaml.stringify "foo")
                    "Your domain has to end with the `.test` extension." eq_refl)
             Sample.hesitant ["foo.test"] eq_refl).
Defined.

(** [foo.test] is registered on [Sample.registered], which already holds
    [app.test]: the sequence written is the [app.test] entry, unchanged and
    still first, followed by the [foo.test] entry. *)
Lemma C6_witness :
  result (Sample.run_add Sample.registered "foo.test") = Return tt
  /\ parsed_certificates BlockYaml.parse Sample.registered = Some [Sample.app_entry]
  /\ exists (v' : value),
    file_after (Sample.config_path Sample.registered) (tls_yml Sample.registered)
      (trace (Sample.run_add Sample.registered "foo.test"))
    = Some (BlockYaml.stringify v')
    /\ certificates_of v' = Some [Sample.app_entry; Sample.foo_entry]
    /\ [Sample.app_entry; Sample.foo_entry] !! 0%nat = Some Sample.app_entry
    /\ length [Sample.app_entry; Sample.foo_entry] = S (length [Sample.app_entry]).
Proof.
  assert (H : result (Sample.run_add Sample.registered "foo.test") = Return tt)
    by (vm_compute; reflexivity).
  assert (Hpc : parsed_certificates BlockYaml.parse Sample.registered
                = Some [Sample.app_entry]) by (vm_compute; reflexivity).
  split; [exact H|]. split; [exact Hpc|].
  destruct (C6_registration_appends PosixPath.join BlockYaml.parse BlockYaml.stringify
              Sample.registered "foo.test" H)
    as (items & v' & items' & Hitems & Hfile & Hcerts & Happ & Hlen & Hkeep & Hlast).
  rewrite Hpc in Hitems. injection Hitems as <-.
  exists v'. split; [exact Hfile|]. split; [rewrite Hcerts, Happ; reflexivity|].
  split; [|reflexivity].
  rewrite <- Happ at 1. apply Hkeep. reflexivity.
Defined.

(** The extension file of [foo.test]. *)
Lemma C7_witness :
  Str.single_line "foo.test" = true
  /\ alt_names (createExtensionString "foo.test") =
       [("DNS.1", "foo.test"); ("DNS.2", "*.foo.test")].
Proof.
  split; [reflexivity|].
  apply (proj2 (proj2 (C7_extension_file "foo.test"))). reflexivity.
Defined.

(** [Sample.freebsd] is turned away. *)
Lemma C8_witness :
  ~ In (os Sample.freebsd) ["darwin"; "linux"; "win32"]
  /\ Sample.run_start Sample.freebsd =
       ([log Error "Your operating system is not supported by this tool."], Exit 1).
Proof.
  assert (H : ~ In (os Sample.freebsd) ["darwin"; "linux"; "win32"]).
  { simpl. intros [H|[H|[H|[]]]]; discriminate. }
  split; [exact H|].
  exact (C8_unsupported_platform PosixPath.join BlockYaml.parse BlockYaml.stringify
           Sample.freebsd H).
Defined.

(** [Sample.bare]: the operator types the bare suffix on Windows. *)
Lemma C9_witness :
  result (Sample.run_start Sample.bare) = Return tt
  /\ execs (trace (Sample.run_start Sample.bare)) =
       execs (trace (generateCertificate PosixPath.join Sample.bare ".test")).
Proof.
  destruct (proj2 (C9_bare_suffix_accepted PosixPath.join BlockYaml.parse
                     BlockYaml.stringify) Sample.bare [])
    as (_ & _ & H).
  - simpl. auto.
  - reflexivity.
  - reflexivity.
  - apply H.
    + split; vm_compute; reflexivity.
    + vm_compute; reflexivity.
Defined.

(** [Sample.unconfigured] has no [tls.yml]. *)
Lemma C10_witness :
  parsed_certificates BlockYaml.parse Sample.unconfigured = None
  /\ (result (Sample.run_add Sample.unconfigured "foo.test") = Exit 1
      \/ exists err, result (Sample.run_add Sample.unconfigured "foo.test") = Throw err)
  /\ execs (trace (Sample.run_add Sample.unconfigured "foo.test")) = []
  /\ writes (trace (Sample.run_add Sample.unconfigured "foo.test")) = [].
Proof.
  split; [reflexivity|].
  apply (C10_config_checked_before_issuance PosixPath.join BlockYaml.parse
           BlockYaml.stringify Sample.unconfigured "foo.test").
  reflexivity.
Defined.

(** * Further properties *)

Section More.

Variable join : list string -> string.
Variable parse : string -> option value.
Variable stringify : value -> string.

(** ** The two listings of the store *)

Lemma roots_filter_two (l : list string) :
  NoDup l ->
  length (List.filter is_root_file l) = 2%nat ->
  List.filter is_root_file l = ["root.pem"; "root.key"]
  \/ List.filter is_root_file l = ["root.key"; "root.pem"].
Proof.
  intros Hnd Hlen.
  pose proof (List.NoDup_filter is_root_file (proj1 (NoDup_ListNoDup l) Hnd)) as Hnd'.
  assert (Hall : forall x, In x (List.filter is_root_file l) ->
                           x = "root.pem" \/ x = "root.key").
  { intros x Hx. apply List.filter_In in Hx as [_ Hx].
    apply is_root_file_spec; exact Hx. }
  destruct (List.filter is_root_file l) as [|a [|b [|c rest]]]; try discriminate.
  inversion Hnd' as [|? ? Hna _]; subst.
  destruct (Hall a) as [-> | ->]; [left; reflexivity | |];
    (destruct (Hall b) as [-> | ->]; [right; left; reflexivity | |]);
    auto; exfalso; apply Hna; left; reflexivity.
Qed.

(** X1. With both root files in the store, [verifyRootCertificates] only
    lists the store and returns the definition
    [{certificate: root.pem, key: root.key}], whatever else the store holds
    and in whatever order the listing comes. *)
Theorem X1_verifyRootCertificates_definition (h : host) :
  roots_present h ->
  verifyRootCertificates join h =
    ([shell_ls (certsDir join h)],
     Return {| certificate := "root.pem"; key := "root.key" |}).
Proof.
  intros Hp. apply roots_listed in Hp.
  destruct (roots_filter_two (elements (store h)) (NoDup_elements _) Hp) as [E | E];
    unfold verifyRootCertificates, ls;
    cbv [bind emit ret logger process_exit negb]; rewrite E; reflexivity.
Qed.

Lemma platformVariants_supported (platform : string) :
  includes supported platform = true <-> exists pv, platformVariants platform = Some pv.
Proof.
  rewrite includes_In. unfold platformVariants, supported. split.
  - intros [<- | [<- | [<- | []]]]; eexists; reflexivity.
  - intros [pv H].
    destruct (String.eqb_spec platform "win32") as [->|]; [simpl; auto|].
    destruct (String.eqb_spec platform "darwin") as [->|]; [simpl; auto|].
    destruct (String.eqb_spec platform "linux") as [->|]; [simpl; auto|].
    discriminate.
Qed.

Lemma createCertificateAuthority_no_variant (h : host) :
  ~ roots_present h ->
  platformVariants (os h) = None ->
  createCertificateAuthority join h =
    ([shell_ls (certsDir join h); log Info "Creating key..."], Throw TypeError).
Proof.
  intros Hm Hpv. rewrite <- roots_listed in Hm. apply Nat.eqb_neq in Hm.
  unfold createCertificateAuthority, ls, variant_field.
  cbv [bind emit ret logger process_exit exec]. rewrite Hm, Hpv. reflexivity.
Qed.

Lemma roots_present_dec (h : host) : roots_present h \/ ~ roots_present h.
Proof.
  destruct (Nat.eqb_spec (length (List.filter is_root_file (elements (store h)))) 2) as [E|E].
  - left. apply roots_listed; exact E.
  - right. rewrite <- roots_listed. exact E.
Qed.

(** X2. The two functions that look for the root authority agree on every
    store: [createCertificateAuthority] ends with [process.exit(0)] (the
    authority exists) exactly when [verifyRootCertificates] returns instead
    of ending the process. *)
Theorem X2_root_checks_agree (h : host) :
  result (createCertificateAuthority join h) = Exit 0
  <-> exists d, result (verifyRootCertificates join h) = Return d.
Proof.
  destruct (roots_present_dec h) as [Hp | Hm].
  - rewrite (createCertificateAuthority_present join h Hp).
    destruct (verifyRootCertificates_present join h Hp) as [d ->].
    split; [eauto | reflexivity].
  - rewrite (verifyRootCertificates_missing join h Hm).
    destruct (platformVariants (os h)) as [pv|] eqn:Hpv.
    + rewrite (createCertificateAuthority_absent join h pv Hm Hpv).
      split; [discriminate | intros [d Hd]; discriminate].
    + rewrite (createCertificateAuthority_no_variant h Hm Hpv).
      split; [discriminate | intros [d Hd]; discriminate].
Qed.

(** X13. The authority flow of [start] ends in one of three ways and never
    on an exception: [process.exit(1)] on an unsupported platform,
    [process.exit(0)] when both root files are there, a normal return after
    the two commands otherwise.  The non-null assertions on
    [platformVariants[os]] are never reached without an entry, and the flow
    reads and writes no file. *)
Theorem X13_authority_flow (h : host) :
  action h = "root_ca" ->
  ((includes supported (os h) = false
    /\ result (start join parse stringify h) = Exit 1
    /\ execs (trace (start join parse stringify h)) = [])
   \/ (includes supported (os h) = true /\ roots_present h
       /\ result (start join parse stringify h) = Exit 0
       /\ execs (trace (start join parse stringify h)) = [])
   \/ (includes supported (os h) = true /\ ~ roots_present h
       /\ result (start join parse stringify h) = Return tt
       /\ exists pv, platformVariants (os h) = Some pv
          /\ execs (trace (start join parse stringify h)) =
               [shell_exec (keyCmd pv) (certsDir join h);
                shell_exec (certCmd pv) (certsDir join h)]))
  /\ List.filter is_read (trace (start join parse stringify h)) = []
  /\ writes (trace (start join parse stringify h)) = [].
Proof.
  intros Hact.
  destruct (includes supported (os h)) eqn:Hinc.
  - rewrite (start_supported join parse stringify h Hinc), Hact. simpl String.eqb.
    cbv iota. apply platformVariants_supported in Hinc as Hpv. destruct Hpv as [pv Hpv].
    destruct (roots_present_dec h) as [Hp | Hm].
    + rewrite (createCertificateAuthority_present join h Hp).
      unfold advisory. destruct (String.eqb (os h) "win32");
        (split; [right; left; repeat split; apply Hp | split; reflexivity]).
    + rewrite (createCertificateAuthority_absent join h pv Hm Hpv).
      unfold advisory. destruct (String.eqb (os h) "win32");
        (split; [right; right | split; reflexivity]);
        (split; [reflexivity|]); (split; [exact Hm|]); (split; [reflexivity|]);
        exists pv; (split; [exact Hpv | reflexivity]).
  - assert (Hns : ~ In (os h) ["darwin"; "linux"; "win32"]).
    { intros Hin. apply includes_In in Hin. unfold supported in Hinc. congruence. }
    unfold start. rewrite Hinc. simpl.
    split; [left; repeat split | split; reflexivity].
Qed.

(** ** Checks before effects *)

Lemma generateCertificate_trace (h : host) (domainName : string) :
  trace (generateCertificate join h domainName) =
    [shell_exec ("openssl genrsa -out " +:+ domainName +:+ ".key 2048") (certsDir join h);
     shell_exec ("openssl req -new -key " +:+ domainName +:+ ".key -out " +:+ domainName
                 +:+ ".csr -subj " +:+ Str.dquote
                 +:+ "/C=FR/ST=azerty/L=azerty/O=azerty/OU=azerty/CN=" +:+ domainName
                 +:+ Str.dquote) (certsDir join h)]
    ++ (if creatable h (domainName +:+ ".ext")
        then [writeFileSync (join [certsDir join h; domainName +:+ ".ext"])
                            (createExtensionString domainName);
              shell_exec ("openssl x509 -req -in " +:+ domainName
                          +:+ ".csr -CA root.pem -CAkey root.key -CAcreateserial -out "
                          +:+ domainName +:+ ".crt -days 825 -sha256 -extfile "
                          +:+ domainName +:+ ".ext") (certsDir join h)]
        else []).
Proof.
  unfold generateCertificate, writeInStore.
  destruct (creatable h (domainName +:+ ".ext")); reflexivity.
Qed.

(** The three ways a run of [addNewCertificate] ends: after the rewrite of
    [tls.yml], on the failed write of the extension file, or in the checks. *)
Lemma addNewCertificate_outcomes (h : host) (domainName : string) :
  (result (addNewCertificate join parse stringify h domainName) = Return tt
   /\ creatable h (domainName +:+ ".ext") = true
   /\ exists v',
     trace (addNewCertificate join parse stringify h domainName) =
       [shell_ls (certsDir join h); readFileSync (certsConfigPath join h)]
         ++ trace (generateCertificate join h domainName)
         ++ [writeFileSync (certsConfigPath join h) (stringify v')])
  \/ (result (addNewCertificate join parse stringify h domainName) = Throw SystemError
      /\ creatable h (domainName +:+ ".ext") = false
      /\ trace (addNewCertificate join parse stringify h domainName) =
           [shell_ls (certsDir join h); readFileSync (certsConfigPath join h)]
             ++ trace (generateCertificate join h domainName))
  \/ (result (addNewCertificate join parse stringify h domainName) <> Return tt
      /\ execs (trace (addNewCertificate join parse stringify h domainName)) = []
      /\ writes (trace (addNewCertificate join parse stringify h domainName)) = []).
Proof.
  destruct (verifyRootCertificates_cases join h) as [[Hp _] | [Hm _]].
  - destruct (parsed_certificates parse h) as [items|] eqn:Hpc.
    + apply parsed_certificates_some in Hpc as (text & v & Hf & Hy & Hs).
      destruct (with_certificate_shape v (of_Certificate (new_entry domainName)) items Hs)
        as (v' & Hw & _).
      rewrite (addNewCertificate_shaped join parse stringify h domainName text v items
                 Hp Hf Hy Hs), Hw.
      destruct (find_result domainName items) as [[found|]| |].
      * right. right. repeat split. discriminate.
      * destruct (creatable h (domainName +:+ ".ext")) eqn:Hc.
        -- left. split; [reflexivity|]. split; [reflexivity|]. exists v'; reflexivity.
        -- right. left. repeat split.
      * right. right. repeat split. discriminate.
      * right. right. repeat split. discriminate.
    + destruct (addNewCertificate_no_config join parse stringify h domainName Hp Hpc)
        as [e ->].
      right. right. repeat split. discriminate.
  - unfold addNewCertificate. rewrite (verifyRootCertificates_missing join h Hm).
    right. right. repeat split. discriminate.
Qed.


(** X4. A registration that returns normally has performed exactly this
    sequence of effects: the listing of the store, the read of [tls.yml],
    the key command, the request command, the write of the extension file,
    the signing command that reads it, and last the rewrite of [tls.yml].
    The three commands run in the store directory. *)
Theorem X4_successful_run_effects (h : host) (domainName : string) :
  result (addNewCertificate join parse stringify h domainName) = Return tt ->
  exists content,
    trace (addNewCertificate join parse stringify h domainName) =
      [shell_ls (certsDir join h);
       readFileSync (certsConfigPath join h);
       shell_exec ("openssl genrsa -out " +:+ domainName +:+ ".key 2048") (certsDir join h);
       shell_exec ("openssl req -new -key " +:+ domainName +:+ ".key -out " +:+ domainName
                   +:+ ".csr -subj " +:+ Str.dquote
                   +:+ "/C=FR/ST=azerty/L=azerty/O=azerty/OU=azerty/CN=" +:+ domainName
                   +:+ Str.dquote) (certsDir join h);
       writeFileSync (join [certsDir join h; domainName +:+ ".ext"])
                     (createExtensionString domainName);
       shell_exec ("openssl x509 -req -in " +:+ domainName
                   +:+ ".csr -CA root.pem -CAkey root.key -CAcreateserial -out "
                   +:+ domainName +:+ ".crt -days 825 -sha256 -extfile "
                   +:+ domainName +:+ ".ext") (certsDir join h);
       writeFileSync (certsConfigPath join h) content].
Proof.
  intros Hr.
  destruct (addNewCertificate_outcomes h domainName)
    as [(_ & Hc & v' & Ht) | [(Hr' & _) | [Hn _]]]; [| congruence | contradiction].
  exists (stringify v'). rewrite Ht, generateCertificate_trace, Hc. reflexivity.
Qed.

Lemma execs_nil_dirs (t : list event) : execs t = [] -> exec_dirs t = [].
Proof.
  induction t as [|e t IH]; [reflexivity|].
  unfold execs, exec_dirs in *. simpl. destruct e; simpl; try exact IH. discriminate.
Qed.

Lemma writes_nil_paths (t : list event) : writes t = [] -> written_paths t = [].
Proof.
  induction t as [|e t IH]; [reflexivity|].
  unfold writes, written_paths in *. simpl. destruct e; simpl; try exact IH. discriminate.
Qed.

Lemma exec_dirs_app (t1 t2 : list event) :
  exec_dirs (t1 ++ t2) = exec_dirs t1 ++ exec_dirs t2.
Proof. apply omap_app. Qed.

Lemma written_paths_app (t1 t2 : list event) :
  written_paths (t1 ++ t2) = written_paths t1 ++ written_paths t2.
Proof. apply omap_app. Qed.

Lemma ask_loop_quiet (typed : list string) :
  execs (trace (ask_loop typed)) = [] /\ writes (trace (ask_loop typed)) = [].
Proof.
  induction typed as [|a rest IH]; [split; reflexivity|].
  destruct (validate a) as [msg|[]] eqn:Hv.
  - rewrite (ask_loop_rejected _ _ _ Hv). exact IH.
  - simpl. rewrite Hv. split; reflexivity.
Qed.

Lemma ask_loop_result (typed : list string) :
  (exists a, result (ask_loop typed) = Return a /\ In a typed /\ validate a = inr tt)
  \/ result (ask_loop typed) = Throw PromptCancelled.
Proof.
  induction typed as [|a rest IH]; [right; reflexivity|].
  destruct (validate a) as [msg|[]] eqn:Hv.
  - rewrite (ask_loop_rejected _ _ _ Hv). unfold result at 1 2. simpl snd.
    destruct IH as [(b & Hb & Hin & Hvb) | Hc]; [left | right; exact Hc].
    exists b. split; [exact Hb|]. split; [right; exact Hin | exact Hvb].
  - left. exists a. split; [simpl; rewrite Hv; reflexivity|].
    split; [left; reflexivity | exact Hv].
Qed.

Lemma addNewCertificate_places (h : host) (domainName : string) :
  Forall (eq (certsDir join h))
         (exec_dirs (trace (addNewCertificate join parse stringify h domainName)))
  /\ Forall (fun p => p = certsConfigPath join h
                      \/ p = join [certsDir join h; domainName +:+ ".ext"])
            (written_paths (trace (addNewCertificate join parse stringify h domainName))).
Proof.
  destruct (addNewCertificate_outcomes h domainName)
    as [(_ & Hc & v' & Ht) | [(_ & Hc & Ht) | (_ & He & Hw)]].
  - rewrite Ht, generateCertificate_trace, Hc. split.
    + repeat constructor.
    + simpl. constructor; [right; reflexivity|]. constructor; [left; reflexivity|].
      constructor.
  - rewrite Ht, generateCertificate_trace, Hc. split; repeat constructor.
  - rewrite (execs_nil_dirs _ He), (writes_nil_paths _ Hw). split; constructor.
Qed.

(** X11. Whatever the host and the operator's input, every command [start]
    executes runs with the store directory as working directory, and every
    file it writes is either [tls.yml] or the path that [join] gives for the
    store directory and a typed answer followed by [.ext]. *)
Theorem X11_effects_stay_in_place (h : host) :
  Forall (eq (certsDir join h)) (exec_dirs (trace (start join parse stringify h)))
  /\ Forall (fun p => p = certsConfigPath join h
                      \/ exists domainName,
                          In domainName (answers h)
                          /\ p = join [certsDir join h; domainName +:+ ".ext"])
            (written_paths (trace (start join parse stringify h))).
Proof.
  destruct (includes supported (os h)) eqn:Hinc.
  - rewrite (start_supported join parse stringify h Hinc).
    assert (Hadv : exec_dirs (advisory h) = [] /\ written_paths (advisory h) = []).
    { unfold advisory. destruct (String.eqb (os h) "win32"); split; reflexivity. }
    destruct Hadv as [Ha1 Ha2].
    destruct (String.eqb (action h) "root_ca").
    + unfold trace at 1 3. simpl fst.
      rewrite exec_dirs_app, written_paths_app, Ha1, Ha2.
      change (exec_dirs (prompt_choice "What action to execute ?" actions
                           :: trace (createCertificateAuthority join h)))
        with (exec_dirs (trace (createCertificateAuthority join h))).
      change (written_paths (prompt_choice "What action to execute ?" actions
                               :: trace (createCertificateAuthority join h)))
        with (written_paths (trace (createCertificateAuthority join h))).
      destruct (roots_present_dec h) as [Hp | Hm].
      * rewrite (createCertificateAuthority_present join h Hp). split; constructor.
      * apply platformVariants_supported in Hinc as [pv Hpv].
        rewrite (createCertificateAuthority_absent join h pv Hm Hpv).
        split; repeat constructor.
    + destruct (String.eqb (action h) "site_cert").
      * destruct (ask_loop_quiet (answers h)) as [Hq1 Hq2].
        destruct (ask_loop_result (answers h)) as [(a & Hra & Hin & _) | Hc].
        -- destruct (ask_loop (answers h)) as [t o]. simpl in Hra, Hq1, Hq2. subst o.
           unfold trace at 1 3. simpl fst.
           rewrite exec_dirs_app, written_paths_app, Ha1, Ha2.
           change (exec_dirs (?e1 :: ?e2 :: t ++ ?k))
             with (exec_dirs (t ++ k)).
           change (written_paths (?e1 :: ?e2 :: t ++ ?k))
             with (written_paths (t ++ k)).
           rewrite exec_dirs_app, written_paths_app.
           rewrite (execs_nil_dirs _ Hq1), (writes_nil_paths _ Hq2).
           destruct (addNewCertificate_places h a) as [H1 H2].
           split; [exact H1|]. simpl. eapply Forall_impl; [exact H2|].
           intros p [-> | ->]; [left; reflexivity | right; eauto].
        -- destruct (ask_loop (answers h)) as [t o]. simpl in Hc, Hq1, Hq2. subst o.
           unfold trace. simpl fst.
           rewrite exec_dirs_app, written_paths_app, Ha1, Ha2.
           change (exec_dirs (?e1 :: ?e2 :: t)) with (exec_dirs t).
           change (written_paths (?e1 :: ?e2 :: t)) with (written_paths t).
           rewrite (execs_nil_dirs _ Hq1), (writes_nil_paths _ Hq2).
           split; constructor.
      * unfold trace. simpl fst.
        rewrite exec_dirs_app, written_paths_app, Ha1, Ha2. split; constructor.
  - unfold start. rewrite Hinc. split; constructor.
Qed.

(** ** The conflict check *)

Lemma certFile_of_new_entry (d : string) :
  certFile_of (of_Certificate (new_entry d)) = Some ("/etc/ssl/traefik/" +:+ d +:+ ".crt").
Proof. reflexivity. Qed.

Lemma template_injective (d1 d2 : string) :
  "/etc/ssl/traefik/" +:+ d1 +:+ ".crt" = "/etc/ssl/traefik/" +:+ d2 +:+ ".crt" ->
  d1 = d2.
Proof.
  intros H. apply StrFacts.app_inv_head in H. apply StrFacts.app_inv_tail in H. exact H.
Qed.

(** X12. The callback given to [find] accepts an entry for a requested
    domain exactly when the entry's [certFile] is the path the tool itself
    writes for that domain, [/etc/ssl/traefik/<domain>.crt], and the domain
    is a non-empty string of letters, [-], [_] and [.].  It throws when the
    entry has no string [certFile], and answers [false] in every other
    case. *)
Theorem X12_conflict_callback (domainName : string) (cert : value) :
  (entry_matches domainName cert = ([], Return true) <->
   certFile_of cert = Some ("/etc/ssl/traefik/" +:+ domainName +:+ ".crt")
   /\ domainName <> EmptyString
   /\ Str.forallb domain_class domainName = true)
  /\ (entry_matches domainName cert = ([], Throw TypeError) <-> certFile_of cert = None)
  /\ (entry_matches domainName cert = ([], Return true)
      \/ entry_matches domainName cert = ([], Return false)
      \/ entry_matches domainName cert = ([], Throw TypeError)).
Proof.
  destruct (certFile_of cert) as [s|] eqn:Hc.
  - rewrite (entry_matches_string domainName cert s Hc).
    unfold matches_domain, extracted_domain. rewrite Hc.
    split; [|split].
    + split.
      * intros H. destruct (regexp_match s) as [d|] eqn:E; [|discriminate].
        injection H as H. apply String.eqb_eq in H. subst d.
        apply regexp_match_spec in E as (-> & Hne & Hall). auto.
      * intros ([= ->] & Hne & Hall).
        rewrite (regexp_match_new_entry domainName Hne Hall), String.eqb_refl.
        reflexivity.
    + split; discriminate.
    + destruct (regexp_match s) as [d|]; [|auto].
      destruct (String.eqb d domainName); auto.
  - rewrite (entry_matches_other domainName cert Hc).
    split; [|split].
    + split; [discriminate | intros [H _]; discriminate].
    + split; reflexivity.
    + auto.
Qed.



(** ** The registry across registrations *)

Lemma extracted_domain_new_entry_inv (domainName d : string) :
  extracted_domain (of_Certificate (new_entry domainName)) = Some d -> d = domainName.
Proof.
  unfold extracted_domain. rewrite certFile_of_new_entry. intros E.
  apply regexp_match_spec in E as (E & _ & _). symmetry. apply template_injective; exact E.
Qed.

(** X5. A successful registration keeps the registry free of duplicates: if
    no two entries of the parsed [certificates] sequence were registered for
    the same domain, no two entries of the sequence written back are. *)
Theorem X5_registration_keeps_domains_distinct (h : host) (domainName : string)
        (items : list value) :
  result (addNewCertificate join parse stringify h domainName) = Return tt ->
  parsed_certificates parse h = Some items ->
  NoDup (registered_domains items) ->
  exists v' items',
    file_after (certsConfigPath join h) (tls_yml h)
      (trace (addNewCertificate join parse stringify h domainName))
    = Some (stringify v')
    /\ certificates_of v' = Some items'
    /\ NoDup (registered_domains items').
Proof.
  intros Hr Hpc Hnd.
  destruct (addNewCertificate_success join parse stringify h domainName Hr)
    as (text & v & items0 & v' & Hp & Hf & Hy & Hs & Hfind & Hw & Ht).
  assert (items0 = items).
  { unfold parsed_certificates in Hpc. rewrite Hf, Hy, Hs in Hpc. congruence. }
  subst items0.
  destruct (with_certificate_shape v (of_Certificate (new_entry domainName)) items Hs)
    as (v2 & Hw2 & Hs2).
  assert (v2 = v') by congruence. subst v2.
  exists v', (items ++ [of_Certificate (new_entry domainName)]).
  split.
  { rewrite Ht.
    exact (file_after_last_write _ _ _
             ([shell_ls (certsDir join h); readFileSync (certsConfigPath join h)]
                ++ trace (generateCertificate join h domainName))). }
  split; [exact Hs2|].
  unfold registered_domains in *. rewrite omap_app. apply NoDup_app.
  split; [exact Hnd|]. split.
  - intros d Hd Hd'. simpl in Hd'.
    destruct (extracted_domain (of_Certificate (new_entry domainName))) as [d'|] eqn:E;
      [|inversion Hd'].
    apply extracted_domain_new_entry_inv in E. subst d'.
    apply list_elem_of_singleton in Hd'. subst d.
    apply list_elem_of_omap in Hd as (c & Hc & Hcd).
    apply find_result_none in Hfind. rewrite List.Forall_forall in Hfind.
    apply list_elem_of_In in Hc. destruct (Hfind c Hc) as [_ Hne]. contradiction.
  - simpl. destruct (extracted_domain (of_Certificate (new_entry domainName)));
      [apply NoDup_singleton | apply NoDup_nil_2].
Qed.

(** X6. Registering a domain twice: after a successful registration of a
    non-empty domain made of characters of the class, a second registration
    of the same domain against the rewritten [tls.yml] ends on
    [process.exit(1)] with no command and no write, provided [parse] gives
    back the document that [stringify] wrote. *)
Theorem X6_second_registration_rejected (h h2 : host) (domainName text : string)
        (v : value) :
  domainName <> EmptyString ->
  Str.forallb domain_class domainName = true ->
  result (addNewCertificate join parse stringify h domainName) = Return tt ->
  tls_yml h = Some text ->
  parse text = Some v ->
  (forall v', with_certificate v (of_Certificate (new_entry domainName)) = Some v' ->
              parse (stringify v') = Some v') ->
  tls_yml h2 = file_after (certsConfigPath join h) (tls_yml h)
                 (trace (addNewCertificate join parse stringify h domainName)) ->
  result (addNewCertificate join parse stringify h2 domainName) = Exit 1
  /\ execs (trace (addNewCertificate join parse stringify h2 domainName)) = []
  /\ writes (trace (addNewCertificate join parse stringify h2 domainName)) = [].
Proof.
  intros Hne Hcl Hr Hf Hy Hrt Hf2.
  destruct (addNewCertificate_success join parse stringify h domainName Hr)
    as (text0 & v0 & items & v' & Hp & Hf0 & Hy0 & Hs & Hfind & Hw & Ht).
  assert (text0 = text) by congruence. subst text0.
  assert (v0 = v) by congruence. subst v0.
  destruct (with_certificate_shape v (of_Certificate (new_entry domainName)) items Hs)
    as (v2 & Hw2 & Hs2).
  assert (v2 = v') by congruence. subst v2.
  assert (Hfa : file_after (certsConfigPath join h) (tls_yml h)
                  (trace (addNewCertificate join parse stringify h domainName))
                = Some (stringify v')).
  { rewrite Ht.
    exact (file_after_last_write _ _ _
             ([shell_ls (certsDir join h); readFileSync (certsConfigPath join h)]
                ++ trace (generateCertificate join h domainName))). }
  rewrite Hfa in Hf2.
  pose proof (Hrt v' Hw) as Hy2.
  assert (Hconf : exists found,
             find_result domainName (items ++ [of_Certificate (new_entry domainName)])
             = Return (Some found)).
  { apply (find_result_conflict domainName _ (of_Certificate (new_entry domainName))).
    - apply Forall_app. split.
      + apply find_result_none in Hfind. eapply Forall_impl; [exact Hfind|].
        intros c [Hc _]; exact Hc.
      + constructor; [simpl; eauto | constructor].
    - apply in_or_app. right. left. reflexivity.
    - apply extracted_domain_new_entry; assumption. }
  destruct Hconf as [found Hfound].
  destruct (verifyRootCertificates_cases join h2) as [[Hp2 _] | [Hm2 _]].
  - rewrite (addNewCertificate_shaped join parse stringify h2 domainName _ v' _
               Hp2 Hf2 Hy2 Hs2), Hfound.
    repeat split.
  - unfold addNewCertificate. rewrite (verifyRootCertificates_missing join h2 Hm2).
    repeat split.
Qed.

(** ** What the rewrite leaves alone *)

Lemma set_field_keys (k : string) (x : value) (fields : list (string * value)) :
  is_Some (lookup_field k fields) ->
  map fst (set_field k x fields) = map fst fields.
Proof.
  induction fields as [|[k' v'] rest IH]; simpl.
  - intros [? H]; discriminate.
  - destruct (String.eqb k' k); simpl; [reflexivity|].
    intros H. f_equal. apply IH; exact H.
Qed.

Lemma with_certificate_frame (v entry v' : value) :
  with_certificate v entry = Some v' ->
  map fst (fields_of v') = map fst (fields_of v)
  /\ (forall k, k <> "tls" -> lookup_field k (fields_of v') = lookup_field k (fields_of v))
  /\ map fst (tls_fields v') = map fst (tls_fields v)
  /\ (forall k, k <> "certificates" ->
                lookup_field k (tls_fields v') = lookup_field k (tls_fields v)).
Proof.
  unfold with_certificate, tls_fields.
  destruct v as [| | | | |top]; try discriminate.
  destruct (lookup_field "tls" top) as [[| | | | |tlsFields]|] eqn:Htls; try discriminate.
  destruct (lookup_field "certificates" tlsFields) as [[| | | |its|]|] eqn:Hc;
    try discriminate.
  intros [= <-]. simpl fields_of. rewrite lookup_set_field, Htls.
  split; [apply set_field_keys; rewrite Htls; eauto|].
  split; [intros k Hk; apply lookup_set_field_ne; exact Hk|].
  split; [apply set_field_keys; rewrite Hc; eauto|].
  intros k Hk; apply lookup_set_field_ne; exact Hk.
Qed.

(** X8. The rewrite of [tls.yml] keeps the other settings of the file: the
    document written by a successful registration has the same keys in the
    same order as the document read, at the top level and under [tls], and
    every scalar setting (null, boolean, number, string) next to [tls] or
    next to [certificates] has the value read. *)
Theorem X8_rewrite_keeps_other_settings (h : host) (domainName : string) :
  result (addNewCertificate join parse stringify h domainName) = Return tt ->
  exists text v v',
    tls_yml h = Some text /\ parse text = Some v
    /\ file_after (certsConfigPath join h) (tls_yml h)
         (trace (addNewCertificate join parse stringify h domainName))
       = Some (stringify v')
    /\ map fst (fields_of v') = map fst (fields_of v)
    /\ map fst (tls_fields v') = map fst (tls_fields v)
    /\ (forall k x, k <> "tls" -> is_scalar x = true ->
                    lookup_field k (fields_of v) = Some x ->
                    lookup_field k (fields_of v') = Some x)
    /\ (forall k x, k <> "certificates" -> is_scalar x = true ->
                    lookup_field k (tls_fields v) = Some x ->
                    lookup_field k (tls_fields v') = Some x).
Proof.
  intros Hr.
  destruct (addNewCertificate_success join parse stringify h domainName Hr)
    as (text & v & items & v' & Hp & Hf & Hy & Hs & Hfind & Hw & Ht).
  exists text, v, v'. split; [exact Hf|]. split; [exact Hy|]. split.
  { rewrite Ht.
    exact (file_after_last_write _ _ _
             ([shell_ls (certsDir join h); readFileSync (certsConfigPath join h)]
                ++ trace (generateCertificate join h domainName))). }
  destruct (with_certificate_frame v _ v' Hw) as (Hk1 & Hv1 & Hk2 & Hv2).
  split; [exact Hk1|]. split; [exact Hk2|]. split.
  - intros k x Hk _ Hx. rewrite (Hv1 k Hk). exact Hx.
  - intros k x Hk _ Hx. rewrite (Hv2 k Hk). exact Hx.
Qed.

(** ** The registration flow of [start] *)

Lemma ask_loop_first_valid (pre post : list string) (answer : string) :
  Forall (fun a => validate a <> inr tt) pre ->
  validate answer = inr tt ->
  result (ask_loop (pre ++ answer :: post)) = Return answer.
Proof.
  intros Hpre Hv. induction Hpre as [|a pre Ha _ IH].
  - simpl. rewrite Hv. reflexivity.
  - change ((a :: pre) ++ answer :: post) with (a :: (pre ++ answer :: post)).
    destruct (validate a) as [msg|[]] eqn:E; [|contradiction].
    rewrite (ask_loop_rejected _ _ _ E). exact IH.
Qed.

Lemma site_flow_of_answer (h : host) (domainName : string) :
  includes supported (os h) = true ->
  action h = "site_cert" ->
  result (ask_loop (answers h)) = Return domainName ->
  result (start join parse stringify h)
    = result (addNewCertificate join parse stringify h domainName)
  /\ execs (trace (start join parse stringify h))
     = execs (trace (addNewCertificate join parse stringify h domainName))
  /\ writes (trace (start join parse stringify h))
     = writes (trace (addNewCertificate join parse stringify h domainName)).
Proof.
  intros Hinc Hact Hask.
  rewrite (start_supported join parse stringify h Hinc), Hact. simpl String.eqb. cbv iota.
  destruct (ask_loop_quiet (answers h)) as [Hq1 Hq2].
  destruct (ask_loop (answers h)) as [t o]. simpl in Hask, Hq1, Hq2. subst o.
  destruct (advisory_quiet h) as [He Hw].
  destruct (addNewCertificate join parse stringify h domainName) as [t' o'].
  cbn [trace result fst snd].
  rewrite execs_app, writes_app, He, Hw.
  change (execs (?e1 :: ?e2 :: t ++ t')) with (execs (t ++ t')).
  change (writes (?e1 :: ?e2 :: t ++ t')) with (writes (t ++ t')).
  rewrite execs_app, writes_app, Hq1, Hq2. repeat split.
Qed.

(** X9. In the registration flow the domain handed to [addNewCertificate]
    is the first answer the validation accepts: the answers typed before it
    are all rejected and leave no effect, the answers after it are never
    looked at, and the run ends as the registration of that domain does,
    with the same commands and the same writes. *)
Theorem X9_first_valid_answer_is_registered (h : host) (pre post : list string)
        (domainName : string) :
  includes supported (os h) = true ->
  action h = "site_cert" ->
  answers h = pre ++ domainName :: post ->
  Forall (fun a => validate a <> inr tt) pre ->
  validate domainName = inr tt ->
  result (start join parse stringify h)
    = result (addNewCertificate join parse stringify h domainName)
  /\ execs (trace (start join parse stringify h))
     = execs (trace (addNewCertificate join parse stringify h domainName))
  /\ writes (trace (start join parse stringify h))
     = writes (trace (addNewCertificate join parse stringify h domainName)).
Proof.
  intros Hinc Hact Ha Hpre Hv.
  apply site_flow_of_answer; try assumption.
  rewrite Ha. apply ask_loop_first_valid; assumption.
Qed.


End More.

(** ** The further properties on sample hosts *)

(** [Sample.fresh] holds both root files. *)
Lemma X1_witness :
  roots_present Sample.fresh
  /\ verifyRootCertificates PosixPath.join Sample.fresh =
       ([shell_ls "/home/dev/.certs"],
        Return {| certificate := "root.pem"; key := "root.key" |}).
Proof.
  assert (H : roots_present Sample.fresh) by (split; vm_compute; reflexivity).
  split; [exact H|].
  exact (X1_verifyRootCertificates_definition PosixPath.join Sample.fresh H).
Defined.


(** The registration of [foo.test] on [Sample.fresh], effect by effect. *)
Lemma X4_witness :
  result (Sample.run_add Sample.fresh "foo.test") = Return tt
  /\ exists content,
    trace (Sample.run_add Sample.fresh "foo.test") =
      [shell_ls "/home/dev/.certs";
       readFileSync "/home/dev/.apps/local_env/with_custom_domains/tls.yml";
       shell_exec "openssl genrsa -out foo.test.key 2048" "/home/dev/.certs";
       shell_exec ("openssl req -new -key foo.test.key -out foo.test.csr -subj "
                   +:+ Str.dquote
                   +:+ "/C=FR/ST=azerty/L=azerty/O=azerty/OU=azerty/CN=foo.test"
                   +:+ Str.dquote) "/home/dev/.certs";
       writeFileSync "/home/dev/.certs/foo.test.ext" (createExtensionString "foo.test");
       shell_exec "openssl x509 -req -in foo.test.csr -CA root.pem -CAkey root.key -CAcreateserial -out foo.test.crt -days 825 -sha256 -extfile foo.test.ext"
                  "/home/dev/.certs";
       writeFileSync "/home/dev/.apps/local_env/with_custom_domains/tls.yml" content].
Proof.
  assert (H : result (Sample.run_add Sample.fresh "foo.test") = Return tt)
    by (vm_compute; reflexivity).
  split; [exact H|].
  exact (X4_successful_run_effects PosixPath.join BlockYaml.parse BlockYaml.stringify
           Sample.fresh "foo.test" H).
Defined.

(** [foo.test] joins [app.test] on [Sample.registered]. *)
Lemma X5_witness :
  (result (Sample.run_add Sample.registered "foo.test") = Return tt
   /\ parsed_certificates BlockYaml.parse Sample.registered = Some [Sample.app_entry]
   /\ NoDup (registered_domains [Sample.app_entry]))
  /\ exists v' items',
      file_after (Sample.config_path Sample.registered) (tls_yml Sample.registered)
        (trace (Sample.run_add Sample.registered "foo.test"))
      = Some (BlockYaml.stringify v')
      /\ certificates_of v' = Some items'
      /\ NoDup (registered_domains items').
Proof.
  assert (H1 : result (Sample.run_add Sample.registered "foo.test") = Return tt)
    by (vm_compute; reflexivity).
  assert (H2 : parsed_certificates BlockYaml.parse Sample.registered
               = Some [Sample.app_entry]) by (vm_compute; reflexivity).
  assert (H3 : NoDup (registered_domains [Sample.app_entry]))
    by (vm_compute; apply NoDup_singleton).
  split; [auto|].
  exact (X5_registration_keeps_domains_distinct PosixPath.join BlockYaml.parse
           BlockYaml.stringify Sample.registered "foo.test" [Sample.app_entry] H1 H2 H3).
Defined.

(** [foo.test] is registered on [Sample.fresh], then asked for again on the
    host whose [tls.yml] is the text just written. *)
Lemma X6_witness :
  result (Sample.run_add
            (set_tls_yml Sample.fresh
               (file_after (Sample.config_path Sample.fresh) (tls_yml Sample.fresh)
                  (trace (Sample.run_add Sample.fresh "foo.test"))))
            "foo.test") = Exit 1
  /\ execs (trace (Sample.run_add
            (set_tls_yml Sample.fresh
               (file_after (Sample.config_path Sample.fresh) (tls_yml Sample.fresh)
                  (trace (Sample.run_add Sample.fresh "foo.test"))))
            "foo.test")) = []
  /\ writes (trace (Sample.run_add
            (set_tls_yml Sample.fresh
               (file_after (Sample.config_path Sample.fresh) (tls_yml Sample.fresh)
                  (trace (Sample.run_add Sample.fresh "foo.test"))))
            "foo.test")) = [].
Proof.
  apply (X6_second_registration_rejected PosixPath.join BlockYaml.parse BlockYaml.stringify
           Sample.fresh _ "foo.test" Sample.empty_registry (BlockYaml.document [])).
  - discriminate.
  - reflexivity.
  - vm_compute; reflexivity.
  - reflexivity.
  - vm_compute; reflexivity.
  - intros v' Hv'. vm_compute in Hv'. injection Hv' as <-. vm_compute. reflexivity.
  - reflexivity.
Defined.


(** [foo.test] is registered on [Sample2.configured], whose [tls.yml] has
    an [http] section, a note and a [passthrough] flag besides the
    sequence. *)
Lemma X8_witness :
  result (addNewCertificate PosixPath.join Sample2.settings_parse BlockYaml.stringify
            Sample2.configured "foo.test") = Return tt
  /\ exists v',
    file_after (Sample.config_path Sample2.configured) (tls_yml Sample2.configured)
      (trace (addNewCertificate PosixPath.join Sample2.settings_parse BlockYaml.stringify
                Sample2.configured "foo.test"))
    = Some (BlockYaml.stringify v')
    /\ map fst (fields_of v') = ["http"; "note"; "tls"]
    /\ map fst (tls_fields v') = ["certificates"; "passthrough"]
    /\ lookup_field "note" (fields_of v') = Some (VStr "kept by hand")
    /\ lookup_field "passthrough" (tls_fields v') = Some (VBool false).
Proof.
  assert (H : result (addNewCertificate PosixPath.join Sample2.settings_parse
                        BlockYaml.stringify Sample2.configured "foo.test") = Return tt)
    by (vm_compute; reflexivity).
  split; [exact H|].
  destruct (X8_rewrite_keeps_other_settings PosixPath.join Sample2.settings_parse
              BlockYaml.stringify Sample2.configured "foo.test" H)
    as (text & v & v' & Hf & Hy & Hfile & Hk1 & Hk2 & Hv1 & Hv2).
  injection Hf as <-. vm_compute in Hy. injection Hy as <-.
  exists v'. split; [exact Hfile|]. split; [exact Hk1|]. split; [exact Hk2|].
  split.
  - apply Hv1; [discriminate | reflexivity | reflexivity].
  - apply Hv2; [discriminate | reflexivity | reflexivity].
Defined.

(** On [Sample2.stubborn] the empty answer and [foo.com] are rejected,
    [foo.test] is registered and [bar.test] is never looked at. *)
Lemma X9_witness :
  result (Sample.run_start Sample2.stubborn)
    = result (Sample.run_add Sample2.stubborn "foo.test")
  /\ execs (trace (Sample.run_start Sample2.stubborn))
     = execs (trace (Sample.run_add Sample2.stubborn "foo.test"))
  /\ writes (trace (Sample.run_start Sample2.stubborn))
     = writes (trace (Sample.run_add Sample2.stubborn "foo.test")).
Proof.
  apply (X9_first_valid_answer_is_registered PosixPath.join BlockYaml.parse
           BlockYaml.stringify Sample2.stubborn [EmptyString; "foo.com"] ["bar.test"]
           "foo.test").
  - reflexivity.
  - reflexivity.
  - reflexivity.
  - repeat constructor; vm_compute; discriminate.
  - reflexivity.
Defined.


(** The authority is created on [Sample2.rootless]. *)
Lemma X13_witness :
  action Sample2.rootless = "root_ca"
  /\ result (Sample.run_start Sample2.rootless) = Return tt
  /\ List.filter is_read (trace (Sample.run_start Sample2.rootless)) = []
  /\ writes (trace (Sample.run_start Sample2.rootless)) = [].
Proof.
  split; [reflexivity|].
  destruct (X13_authority_flow PosixPath.join BlockYaml.parse BlockYaml.stringify
              Sample2.rootless eq_refl) as ([(Hn & _) | [(_ & _ & He & _) | (_ & _ & Hr & _)]] & H).
  - vm_compute in Hn. discriminate.
  - vm_compute in He. discriminate.
  - split; [exact Hr | exact H].
Defined.
